(** * Barcode scanner: the detection-confirmation engine, the scan
    lifecycle and the history store of [src/app.js], embedded as pure
    state-passing functions.

    Conventions of the embedding.
    - The fields of the [BarcodeScanner] instance ([this]) are the fields
      of the record [App]; a method is a function from [App] to [App].
    - [Date.now()] and [new Date()] are inputs: every reading of the clock
      a method performs is an argument of its embedding, in the order in
      which the source reads it.
    - An [async] method is cut at the [await]s where the event loop can
      run other code; the continuation is a function of its own, and the
      suspended calls are counted in the [pending...] fields.
    - Strings are [string]s whose characters stand for code units below
      256.  A string-valued property that the source only tests for
      truthiness is a [string] in which the empty string stands for every
      falsy value ([null], [undefined], the empty string).
    - Console output, the beep, CSS class toggles and button styling
      change no field that a modelled method reads; they are left out. *)

From Stdlib Require Import ZArith List String Ascii Bool Lia PeanoNat.
Import ListNotations.

Local Open Scope string_scope.
Local Open Scope Z_scope.

(** ** Data model *)

(** An entry of [this.detectionHistory]. *)
Module Detection.

Record t : Type := make { code : string; format : string; timestamp : Z }.

End Detection.

(** An entry of [this.scanHistory] (the object [scanData] of [processScan]);
    [product = None] is the source's [null]. *)
Module Scan.

Record t : Type :=
  make { code : string; format : string; timestamp : string;
         product : option string }.

(** The record after [r.product = p]. *)
Definition with_product (p : option string) (r : t) : t :=
  make (code r) (format r) (timestamp r) p.

End Scan.

Record Formats : Type :=
  { UPC : bool; EAN : bool; Code128 : bool; Code39 : bool; QR : bool;
    DataMatrix : bool }.

Record Settings : Type :=
  { audioFeedback : bool;
    autoSearch : bool;
    requireMultipleDetections : bool;
    minDetections : Z;
    detectionTimeout : Z;
    formats : Formats }.

(** The settings literal of the constructor. *)
Definition defaultSettings : Settings :=
  {| audioFeedback := true; autoSearch := true;
     requireMultipleDetections := true; minDetections := 2;
     detectionTimeout := 2000;
     formats := {| UPC := true; EAN := true; Code128 := true;
                   Code39 := true; QR := true; DataMatrix := true |} |}.

(** The object a decoder hands to [handleDetection]: [getText()] and, when
    the method exists, [getBarcodeFormat().toString()]. *)
Record RawResult : Type :=
  { getText : string; getBarcodeFormat : option string }.

(** Product metadata ([productData]). *)
Record Link : Type := { link_name : string; link_url : string }.

Record ProductData : Type :=
  { name : string; brand : string; description : string; image : string;
    source : string; sourceUrl : string; categories : string;
    nutritionGrades : string; labels : string;
    searchLinks : option (list Link) }.

(** The [product] object of an Open Food Facts answer, and what
    [fetch]-then-[json] can deliver. *)
Record OffProduct : Type :=
  { product_name : string; product_name_en : string; brands : string;
    ingredients_text_en : string; ingredients_text : string;
    image_url : string; image_front_url : string; off_categories : string;
    nutrition_grades : string; off_labels : string }.

Inductive FetchResult : Type :=
| FetchFailed                                   (* rejection, [!response.ok], bad JSON *)
| FetchJson (status : Z) (prod : option OffProduct).

(** ** The page *)

(** The markup written into [#productInfo], by structure. *)
Inductive Html : Type :=
| Img (src alt : string)
| Heading (text : string)
| Para (label text : string)
| Anchor (href text : string).

Inductive Card : Type :=
| CardInitial
| CardLoading
| CardProduct (body links : list Html)
| CardError (body links : list Html).

Inductive Checkbox : Type :=
| cbAudioFeedback | cbAutoSearch | cbRequireMultipleDetections
| cbFormatUPC | cbFormatEAN | cbFormatCode128 | cbFormatCode39
| cbFormatQR | cbFormatDataMatrix.

(** The elements the modelled methods look up with [getElementById];
    [None] (or [false]) is an element that is not in the page. *)
Record Dom : Type :=
  { checkbox : Checkbox -> option bool;       (* [.checked] *)
    manualCode : option string;               (* [.value] of the input *)
    manualFormat : option string;             (* [.value] of the select *)
    scanner : option bool;                    (* the video; is [srcObject] set *)
    scannerCanvas : bool;
    productInfo : option Card }.

Definition set_manual (c f : option string) (d : Dom) : Dom :=
  {| checkbox := checkbox d; manualCode := c; manualFormat := f;
     scanner := scanner d; scannerCanvas := scannerCanvas d;
     productInfo := productInfo d |}.

Definition set_productInfo (c : option Card) (d : Dom) : Dom :=
  {| checkbox := checkbox d; manualCode := manualCode d;
     manualFormat := manualFormat d; scanner := scanner d;
     scannerCanvas := scannerCanvas d; productInfo := c |}.

(** ** The host: local storage and the event loop *)

Record Host : Type :=
  { storageWorks : bool;                       (* does [setItem] succeed *)
    storedHistory : option (list Scan.t);      (* key ['scanHistory'] *)
    storedSettings : option Settings;          (* key ['scannerSettings'] *)
    pendingFrames : nat;                       (* [requestAnimationFrame] callbacks *)
    pendingDecodes : nat;                      (* [scanLoop]s suspended in [decodeFromImageData] *)
    pendingLookups : list string;              (* [searchProduct]s suspended in [fetch] *)
    decodeAttempts : nat }.                    (* calls of [decodeFromImageData] so far *)

Definition set_storedHistory (v : option (list Scan.t)) (h : Host) : Host :=
  {| storageWorks := storageWorks h; storedHistory := v;
     storedSettings := storedSettings h; pendingFrames := pendingFrames h;
     pendingDecodes := pendingDecodes h; pendingLookups := pendingLookups h;
     decodeAttempts := decodeAttempts h |}.

Definition set_storedSettings (v : option Settings) (h : Host) : Host :=
  {| storageWorks := storageWorks h; storedHistory := storedHistory h;
     storedSettings := v; pendingFrames := pendingFrames h;
     pendingDecodes := pendingDecodes h; pendingLookups := pendingLookups h;
     decodeAttempts := decodeAttempts h |}.

Definition set_pendingFrames (v : nat) (h : Host) : Host :=
  {| storageWorks := storageWorks h; storedHistory := storedHistory h;
     storedSettings := storedSettings h; pendingFrames := v;
     pendingDecodes := pendingDecodes h; pendingLookups := pendingLookups h;
     decodeAttempts := decodeAttempts h |}.

Definition set_decodes (pending attempts : nat) (h : Host) : Host :=
  {| storageWorks := storageWorks h; storedHistory := storedHistory h;
     storedSettings := storedSettings h; pendingFrames := pendingFrames h;
     pendingDecodes := pending; pendingLookups := pendingLookups h;
     decodeAttempts := attempts |}.

Definition set_pendingLookups (v : list string) (h : Host) : Host :=
  {| storageWorks := storageWorks h; storedHistory := storedHistory h;
     storedSettings := storedSettings h; pendingFrames := pendingFrames h;
     pendingDecodes := pendingDecodes h; pendingLookups := v;
     decodeAttempts := decodeAttempts h |}.

(** ** The application object *)

Record App : Type :=
  { isScanning : bool;
    codeReader : bool;                         (* has ZXing been loaded *)
    detectionHistory : list Detection.t;
    lastDetectedCode : option string;
    detectionCount : Z;
    scanStartTime : Z;
    frameCount : Z;
    debugMode : bool;
    debugInterval : bool;                      (* is the debug timer set *)
    settings : Settings;
    scanHistory : list Scan.t;
    dom : Dom;
    host : Host }.

Definition set_isScanning (v : bool) (s : App) : App :=
  {| isScanning := v; codeReader := codeReader s;
     detectionHistory := detectionHistory s;
     lastDetectedCode := lastDetectedCode s;
     detectionCount := detectionCount s; scanStartTime := scanStartTime s;
     frameCount := frameCount s; debugMode := debugMode s;
     debugInterval := debugInterval s; settings := settings s;
     scanHistory := scanHistory s; dom := dom s; host := host s |}.

Definition set_codeReader (v : bool) (s : App) : App :=
  {| isScanning := isScanning s; codeReader := v;
     detectionHistory := detectionHistory s;
     lastDetectedCode := lastDetectedCode s;
     detectionCount := detectionCount s; scanStartTime := scanStartTime s;
     frameCount := frameCount s; debugMode := debugMode s;
     debugInterval := debugInterval s; settings := settings s;
     scanHistory := scanHistory s; dom := dom s; host := host s |}.

Definition set_debugMode (v : bool) (s : App) : App :=
  {| isScanning := isScanning s; codeReader := codeReader s;
     detectionHistory := detectionHistory s;
     lastDetectedCode := lastDetectedCode s;
     detectionCount := detectionCount s; scanStartTime := scanStartTime s;
     frameCount := frameCount s; debugMode := v;
     debugInterval := debugInterval s; settings := settings s;
     scanHistory := scanHistory s; dom := dom s; host := host s |}.

Definition set_detectionHistory (v : list Detection.t) (s : App) : App :=
  {| isScanning := isScanning s; codeReader := codeReader s;
     detectionHistory := v; lastDetectedCode := lastDetectedCode s;
     detectionCount := detectionCount s; scanStartTime := scanStartTime s;
     frameCount := frameCount s; debugMode := debugMode s;
     debugInterval := debugInterval s; settings := settings s;
     scanHistory := scanHistory s; dom := dom s; host := host s |}.

Definition set_lastDetectedCode (v : option string) (s : App) : App :=
  {| isScanning := isScanning s; codeReader := codeReader s;
     detectionHistory := detectionHistory s; lastDetectedCode := v;
     detectionCount := detectionCount s; scanStartTime := scanStartTime s;
     frameCount := frameCount s; debugMode := debugMode s;
     debugInterval := debugInterval s; settings := settings s;
     scanHistory := scanHistory s; dom := dom s; host := host s |}.

(** The four resets at the head of [startScanning]. *)
Definition set_counters (count start frames : Z) (s : App) : App :=
  {| isScanning := isScanning s; codeReader := codeReader s;
     detectionHistory := detectionHistory s;
     lastDetectedCode := lastDetectedCode s;
     detectionCount := count; scanStartTime := start;
     frameCount := frames; debugMode := debugMode s;
     debugInterval := debugInterval s; settings := settings s;
     scanHistory := scanHistory s; dom := dom s; host := host s |}.

Definition set_debugInterval (v : bool) (s : App) : App :=
  {| isScanning := isScanning s; codeReader := codeReader s;
     detectionHistory := detectionHistory s;
     lastDetectedCode := lastDetectedCode s;
     detectionCount := detectionCount s; scanStartTime := scanStartTime s;
     frameCount := frameCount s; debugMode := debugMode s;
     debugInterval := v; settings := settings s;
     scanHistory := scanHistory s; dom := dom s; host := host s |}.

Definition set_settings (v : Settings) (s : App) : App :=
  {| isScanning := isScanning s; codeReader := codeReader s;
     detectionHistory := detectionHistory s;
     lastDetectedCode := lastDetectedCode s;
     detectionCount := detectionCount s; scanStartTime := scanStartTime s;
     frameCount := frameCount s; debugMode := debugMode s;
     debugInterval := debugInterval s; settings := v;
     scanHistory := scanHistory s; dom := dom s; host := host s |}.

Definition set_scanHistory (v : list Scan.t) (s : App) : App :=
  {| isScanning := isScanning s; codeReader := codeReader s;
     detectionHistory := detectionHistory s;
     lastDetectedCode := lastDetectedCode s;
     detectionCount := detectionCount s; scanStartTime := scanStartTime s;
     frameCount := frameCount s; debugMode := debugMode s;
     debugInterval := debugInterval s; settings := settings s;
     scanHistory := v; dom := dom s; host := host s |}.

Definition set_dom (v : Dom) (s : App) : App :=
  {| isScanning := isScanning s; codeReader := codeReader s;
     detectionHistory := detectionHistory s;
     lastDetectedCode := lastDetectedCode s;
     detectionCount := detectionCount s; scanStartTime := scanStartTime s;
     frameCount := frameCount s; debugMode := debugMode s;
     debugInterval := debugInterval s; settings := settings s;
     scanHistory := scanHistory s; dom := v; host := host s |}.

Definition set_host (v : Host) (s : App) : App :=
  {| isScanning := isScanning s; codeReader := codeReader s;
     detectionHistory := detectionHistory s;
     lastDetectedCode := lastDetectedCode s;
     detectionCount := detectionCount s; scanStartTime := scanStartTime s;
     frameCount := frameCount s; debugMode := debugMode s;
     debugInterval := debugInterval s; settings := settings s;
     scanHistory := scanHistory s; dom := dom s; host := v |}.

(** ** Strings *)

Definition nonEmpty (s : string) : bool :=
  match s with EmptyString => false | String _ _ => true end.

(** [a || b] on strings. *)
Definition orElse (a b : string) : string := if nonEmpty a then a else b.

(** White space and line terminators among the code units below 256:
    TAB, LF, VT, FF, CR, SP and NBSP. *)
Definition isWhiteSpace (c : ascii) : bool :=
  match nat_of_ascii c with
  | 9%nat | 10%nat | 11%nat | 12%nat | 13%nat | 32%nat | 160%nat => true
  | _ => false
  end.

Fixpoint trimStart (s : string) : string :=
  match s with
  | EmptyString => EmptyString
  | String c rest => if isWhiteSpace c then trimStart rest else s
  end.

Fixpoint trimEnd (s : string) : string :=
  match s with
  | EmptyString => EmptyString
  | String c rest =>
      match trimEnd rest with
      | EmptyString => if isWhiteSpace c then EmptyString else String c EmptyString
      | kept => String c kept
      end
  end.

(** [String.prototype.trim]. *)
Definition trim (s : string) : string := trimEnd (trimStart s).

Definition isDigit (c : ascii) : bool :=
  ((48 <=? nat_of_ascii c) && (nat_of_ascii c <=? 57))%nat.

(** [/^\d{8,14}$/.test(code)] *)
Definition isValidUPCorEAN (code : string) : bool :=
  forallb isDigit (list_ascii_of_string code)
  && ((8 <=? String.length code) && (String.length code <=? 14))%nat.

(** [truncateText(text)] with the default [maxLength = 200]. *)
Definition truncateText (text : string) : string :=
  if nonEmpty text then
    if (200 <? String.length text)%nat
    then substring 0 200 text ++ "..."
    else text
  else "".

(** ** The platform *)

(** Library functions of the browser that the source calls and whose
    result is a string. *)
Record Platform : Type :=
  { toISOString : Z -> string;                 (* [new Date(ms).toISOString()] *)
    textToHtml : string -> string;             (* [textContent] read back as [innerHTML] *)
    encodeURIComponent : string -> string;
    toUpperCase : string -> string }.

Section Methods.

Variable P : Platform.

(** ** Persistence *)

(** [saveHistory]: a failing [setItem] is caught and logged. *)
Definition saveHistory (s : App) : App :=
  if storageWorks (host s)
  then set_host (set_storedHistory (Some (scanHistory s)) (host s)) s
  else s.

Definition saveSettings (s : App) : App :=
  if storageWorks (host s)
  then set_host (set_storedSettings (Some (settings s)) (host s)) s
  else s.

(** ** History store *)

(** [addToHistory]: [unshift], then [slice(0, 50)] when longer than 50. *)
Definition addToHistory (scanData : Scan.t) (s : App) : App :=
  let unshifted := scanData :: scanHistory s in
  let s1 :=
    if (50 <? List.length unshifted)%nat
    then set_scanHistory (firstn 50 unshifted) s
    else set_scanHistory unshifted s in
  saveHistory s1.

(** ** Product lookup and display *)

(** [escapeHtml] *)
Definition escapeHtml (text : string) : string :=
  if nonEmpty text then textToHtml P text else "".

Definition createFallbackResult (code : string) : ProductData :=
  let google :=
    "https://www.google.com/search?q=" ++ encodeURIComponent P code
      ++ "+barcode+product" in
  {| name := "Product Code: " ++ code;
     brand := "Unknown";
     description := "Product information not found in our database. Use the search links below to find more details.";
     image := "";
     source := "Search Links";
     sourceUrl := google;
     categories := ""; nutritionGrades := ""; labels := "";
     searchLinks := Some
       [ {| link_name := "Google Search"; link_url := google |};
         {| link_name := "Amazon Search";
            link_url := "https://www.amazon.com/s?k=" ++ encodeURIComponent P code |};
         {| link_name := "UPC Database";
            link_url := "https://www.upcitemdb.com/upc/" ++ encodeURIComponent P code |} ] |}.

(** What [searchOpenFoodFacts] returns once [fetch] has settled; [None] is
    its [null]. *)
Definition searchOpenFoodFacts (code : string) (resp : FetchResult)
  : option ProductData :=
  match resp with
  | FetchJson 1 (Some product) =>
      Some {| name := orElse (product_name product)
                        (orElse (product_name_en product) "Unknown Product");
              brand := orElse (brands product) "Unknown Brand";
              description := truncateText
                  (orElse (ingredients_text_en product)
                     (orElse (ingredients_text product) ""));
              image := orElse (image_url product) (image_front_url product);
              source := "Open Food Facts";
              sourceUrl := "https://world.openfoodfacts.org/product/" ++ code;
              categories := off_categories product;
              nutritionGrades := nutrition_grades product;
              labels := off_labels product;
              searchLinks := None |}
  | _ => None
  end.

(** The links of the failure card of [displayProductError]. *)
Definition errorLinks (code : string) : list Html :=
  [ Anchor ("https://www.google.com/search?q=" ++ encodeURIComponent P code
              ++ "+barcode+product") "Search Google";
    Anchor ("https://www.amazon.com/s?k=" ++ encodeURIComponent P code)
           "Search Amazon";
    Anchor ("https://www.upcitemdb.com/upc/" ++ encodeURIComponent P code)
           "UPC Database" ].

Definition displayProductError (code : string) (s : App) : App :=
  match productInfo (dom s) with
  | Some _ =>
      set_dom (set_productInfo
                 (Some (CardError
                          [ Heading "Product Search Failed";
                            Para "Unable to find product information for code:"
                                 (escapeHtml code) ]
                          (errorLinks code)))
                 (dom s)) s
  | None => s
  end.

Definition when (b : bool) (h : list Html) : list Html := if b then h else [].

(** The markup [displayProductInfo] assembles in [html]. *)
Definition cardBody (productData : ProductData) : list Html :=
  when (nonEmpty (image productData))
       [Img (image productData) (name productData)]
  ++ [Heading (escapeHtml (name productData))]
  ++ when (nonEmpty (brand productData)
           && negb (String.eqb (brand productData) "Unknown"))
       [Para "Brand:" (escapeHtml (brand productData))]
  ++ when (nonEmpty (description productData))
       [Para "Description:" (escapeHtml (description productData))]
  ++ when (nonEmpty (categories productData))
       [Para "Categories:" (escapeHtml (categories productData))]
  ++ when (nonEmpty (nutritionGrades productData))
       [Para "Nutrition Grade:" (toUpperCase P (nutritionGrades productData))]
  ++ [Para "Source:" (escapeHtml (source productData))].

Definition cardLinks (productData : ProductData) : list Html :=
  when (nonEmpty (sourceUrl productData))
       [Anchor (escapeHtml (sourceUrl productData)) "View Original"]
  ++ match searchLinks productData with
     | Some links =>
         map (fun link => Anchor (escapeHtml (link_url link))
                                 (escapeHtml (link_name link))) links
     | None =>
         [Anchor ("https://www.google.com/search?q="
                    ++ encodeURIComponent P (name productData))
                 "Search Google"]
     end.

(** [displayProductInfo(productData, code)]; [None] is a falsy
    [productData]. *)
Definition displayProductInfo (productData : option ProductData)
    (code : string) (s : App) : App :=
  match productInfo (dom s) with
  | None => s
  | Some _ =>
      match productData with
      | None => displayProductError code s
      | Some pd =>
          let s1 :=
            set_dom (set_productInfo
                       (Some (CardProduct (cardBody pd) (cardLinks pd)))
                       (dom s)) s in
          match scanHistory s1 with
          | [] => s1
          | head :: older =>
              saveHistory
                (set_scanHistory
                   (Scan.with_product (Some (name pd)) head :: older) s1)
          end
      end
  end.

(** [showResults]: the part that matters later is the spinner put into
    [#productInfo]. *)
Definition showResults (scanData : Scan.t) (s : App) : App :=
  match productInfo (dom s) with
  | Some _ => set_dom (set_productInfo (Some CardLoading) (dom s)) s
  | None => s
  end.

(** [searchProduct] up to its first suspension: a code that passes
    [isValidUPCorEAN] waits in [fetch]; any other code gets the fallback
    at once. *)
Definition searchProduct (code format : string) (s : App) : App :=
  if isValidUPCorEAN code
  then set_host (set_pendingLookups (pendingLookups (host s) ++ [code])
                   (host s)) s
  else displayProductInfo (Some (createFallbackResult code)) code s.

(** [searchProduct] from the point where [searchOpenFoodFacts] has
    returned. *)
Definition searchProduct_resume (code : string) (resp : FetchResult)
    (s : App) : App :=
  let productData :=
    match searchOpenFoodFacts code resp with
    | Some found => found
    | None => createFallbackResult code
    end in
  displayProductInfo (Some productData) code s.

(** The object literal [scanData] of [processScan]. *)
Definition newScanData (code format : string) (now : Z) : Scan.t :=
  Scan.make code format (toISOString P now) None.

(** [processScan] up to its first suspension. *)
Definition processScan (code format : string) (now : Z) (s : App) : App :=
  let scanData := newScanData code format now in
  let s1 := showResults scanData (addToHistory scanData s) in
  if autoSearch (settings s1) then searchProduct code format s1 else s1.

(** ** Scan lifecycle *)

Definition stopScanning (s : App) : App :=
  if isScanning s then set_debugInterval false (set_isScanning false s)
  else s.

Definition confirmDetection (code format : string) (now : Z) (s : App)
  : App :=
  processScan code format now (stopScanning s).

Inductive Outcome : Type :=
| Confirmed (code format : string)
| Pending.

(** [handleDetection(result)].  The clock is read three times: for the
    pushed entry, for the cutoff, and (on confirmation) by [processScan].
    The outcome tells whether [confirmDetection] was called. *)
Definition handleDetection (result : RawResult) (tPush tCutoff tScan : Z)
    (s : App) : Outcome * App :=
  let code := getText result in
  let format :=
    match getBarcodeFormat result with
    | Some f => f
    | None => "Unknown"
    end in
  let s1 := set_lastDetectedCode (Some code) s in
  let s2 :=
    set_detectionHistory
      (detectionHistory s1 ++ [Detection.make code format tPush]) s1 in
  let cutoff := tCutoff - detectionTimeout (settings s2) in
  let s3 :=
    set_detectionHistory
      (filter (fun d => cutoff <? Detection.timestamp d)
              (detectionHistory s2)) s2 in
  let codeMatches :=
    filter (fun d => String.eqb (Detection.code d) code)
           (detectionHistory s3) in
  if requireMultipleDetections (settings s3) then
    if minDetections (settings s3) <=? Z.of_nat (List.length codeMatches)
    then (Confirmed code format, confirmDetection code format tScan s3)
    else (Pending, s3)
  else (Confirmed code format, confirmDetection code format tScan s3).

(** What drawing a video frame onto the canvas can do. *)
Inductive Frame : Type :=
| DrawThrows          (* [getContext] or [drawImage] raises *)
| ImageDataThrows     (* [getImageData] raises *)
| FrameReady.

(** [requestAnimationFrame(() => this.scanLoop())] under its guard. *)
Definition continueScanning (s : App) : App :=
  if isScanning s
  then set_host (set_pendingFrames (S (pendingFrames (host s))) (host s)) s
  else s.

(** [this.frameCount++] and the guarded rescheduling that follows it. *)
Definition nextFrame (s : App) : App :=
  continueScanning
    (set_counters (detectionCount s) (scanStartTime s) (frameCount s + 1) s).

(** [scanLoop] up to its suspension in [decodeFromImageData]. *)
Definition scanLoop (frame : Frame) (s : App) : App :=
  if negb (isScanning s) then s
  else
    match scanner (dom s), scannerCanvas (dom s) with
    | Some _, true =>
        match frame with
        | DrawThrows => continueScanning s        (* the outer [catch] *)
        | ImageDataThrows => nextFrame s          (* the inner [catch], or no reader *)
        | FrameReady =>
            if codeReader s
            then set_host (set_decodes (S (pendingDecodes (host s)))
                             (S (decodeAttempts (host s))) (host s)) s
            else nextFrame s
        end
    | _, _ => s
    end.

(** [scanLoop] from the point where [decodeFromImageData] has settled;
    [None] is a rejection or a falsy result. *)
Definition scanLoop_resume (decoded : option RawResult)
    (tPush tCutoff tScan : Z) (s : App) : App :=
  match decoded with
  | Some result =>
      if nonEmpty (getText result)
      then snd (handleDetection result tPush tCutoff tScan s)
      else nextFrame s
  | None => nextFrame s
  end.

(** [startScanning] up to the suspension of the first [scanLoop]. *)
Definition startScanning (now : Z) (frame : Frame) (s : App) : App :=
  if isScanning s then s
  else
    let s1 :=
      set_counters 0 now 0 (set_detectionHistory [] (set_isScanning true s)) in
    match scanner (dom s1) with
    | Some true =>
        let s2 := scanLoop frame s1 in
        if debugMode s2 then set_debugInterval true s2 else s2
    | _ => stopScanning s1
    end.

(** ** Settings and manual entry *)

Definition updateSettings (s : App) : App :=
  let checked (c : Checkbox) : bool :=
    match checkbox (dom s) c with
    | Some b => b
    | None => true
    end in
  saveSettings
    (set_settings
       {| audioFeedback := checked cbAudioFeedback;
          autoSearch := checked cbAutoSearch;
          requireMultipleDetections := checked cbRequireMultipleDetections;
          minDetections := 2;
          detectionTimeout := 2000;
          formats := {| UPC := checked cbFormatUPC;
                        EAN := checked cbFormatEAN;
                        Code128 := checked cbFormatCode128;
                        Code39 := checked cbFormatCode39;
                        QR := checked cbFormatQR;
                        DataMatrix := checked cbFormatDataMatrix |} |} s).

Inductive ManualOutcome : Type :=
| ElementsNotFound     (* the early return after [console.error] *)
| EmptyCodeError       (* the [alert] and the return after it *)
| Submitted (code format : string).

(** [submitManualCode] up to the suspension of [processScan]. *)
Definition submitManualCode (now : Z) (s : App) : ManualOutcome * App :=
  match manualCode (dom s), manualFormat (dom s) with
  | Some value, Some format =>
      let code := trim value in
      if nonEmpty code then
        let s1 := processScan code format now s in
        (Submitted code format,
         set_dom (set_manual (Some "") (Some "UPC-A") (dom s1)) s1)
      else (EmptyCodeError, s)
  | _, _ => (ElementsNotFound, s)
  end.

(** [clearHistory], given the answer to [confirm]. *)
Definition clearHistory (confirmed : bool) (s : App) : App :=
  if confirmed then saveHistory (set_scanHistory [] s) else s.

(** [showHistoryDetails(index)] *)
Definition showHistoryDetails (index : nat) (s : App) : App :=
  match nth_error (scanHistory s) index with
  | Some scan =>
      let s1 := showResults scan s in
      match Scan.product scan with
      | Some product =>
          if nonEmpty product then
            displayProductInfo
              (Some {| name := product; brand := ""; description := "";
                       image := ""; source := "History";
                       sourceUrl := "https://www.google.com/search?q="
                                      ++ encodeURIComponent P product;
                       categories := ""; nutritionGrades := ""; labels := "";
                       searchLinks := None |})
              (Scan.code scan) s1
          else s1
      | None => s1
      end
  | None => s
  end.

(** [toggleDebug] *)
Definition toggleDebug (s : App) : App := set_debugMode (negb (debugMode s)) s.

(** ** The event loop *)

(** What the host can run next: a callback that is due, or a user
    action.  [TypeManual] is the user filling the manual-entry form,
    [ReaderLoaded] the moment [initializeZXing] stores the reader, and
    [ToggleDebug] the debug button. *)
Inductive Event : Type :=
| AnimationFrame (frame : Frame)
| DecodeSettled (decoded : option RawResult) (tPush tCutoff tScan : Z)
| FetchSettled (code : string) (resp : FetchResult)
| StartScanning (now : Z) (frame : Frame)
| StopScanning
| TypeManual (value format : string)
| SubmitManual (now : Z)
| UpdateSettings
| ClearHistory (confirmed : bool)
| ShowHistoryDetails (index : nat)
| ReaderLoaded
| ToggleDebug.

(** Takes one suspended lookup of [code] off the list, if there is one. *)
Fixpoint takeLookup (code : string) (pending : list string)
  : option (list string) :=
  match pending with
  | [] => None
  | c :: rest =>
      if String.eqb c code then Some rest
      else option_map (cons c) (takeLookup code rest)
  end.

Definition dispatch (e : Event) (s : App) : App :=
  match e with
  | AnimationFrame frame =>
      match pendingFrames (host s) with
      | O => s
      | S n => scanLoop frame (set_host (set_pendingFrames n (host s)) s)
      end
  | DecodeSettled decoded tPush tCutoff tScan =>
      match pendingDecodes (host s) with
      | O => s
      | S n =>
          scanLoop_resume decoded tPush tCutoff tScan
            (set_host (set_decodes n (decodeAttempts (host s)) (host s)) s)
      end
  | FetchSettled code resp =>
      match takeLookup code (pendingLookups (host s)) with
      | Some rest =>
          searchProduct_resume code resp
            (set_host (set_pendingLookups rest (host s)) s)
      | None => s
      end
  | StartScanning now frame => startScanning now frame s
  | StopScanning => stopScanning s
  | TypeManual value format =>
      set_dom (set_manual (option_map (fun _ => value) (manualCode (dom s)))
                          (option_map (fun _ => format) (manualFormat (dom s)))
                          (dom s)) s
  | SubmitManual now => snd (submitManualCode now s)
  | UpdateSettings => updateSettings s
  | ClearHistory confirmed => clearHistory confirmed s
  | ShowHistoryDetails index => showHistoryDetails index s
  | ReaderLoaded => set_codeReader true s
  | ToggleDebug => toggleDebug s
  end.

(** Runs the events in order. *)
Definition run (events : list Event) (s : App) : App :=
  fold_left (fun st e => dispatch e st) events s.

Definition isStart (e : Event) : bool :=
  match e with StartScanning _ _ => true | _ => false end.

(** ** Vocabulary of the statements *)

(** Number of entries of a window that carry [code]. *)
Definition countCode (code : string) (window : list Detection.t) : nat :=
  List.length (filter (fun d => String.eqb (Detection.code d) code) window).

(** The format [handleDetection] works with. *)
Definition formatOf (result : RawResult) : string :=
  match getBarcodeFormat result with
  | Some f => f
  | None => "Unknown"
  end.

(** The entry [handleDetection] pushes. *)
Definition pushed (result : RawResult) (tPush : Z) : Detection.t :=
  Detection.make (getText result) (formatOf result) tPush.

(** Does [value] consist of white space only (the empty string does). *)
Definition blank (value : string) : bool :=
  forallb isWhiteSpace (list_ascii_of_string value).

(** History after the records [rs] were added one after the other. *)
Definition addAll (rs : list Scan.t) (s : App) : App :=
  fold_left (fun st r => addToHistory r st) rs s.

(** The window [handleDetection] counts in, and the state it is in when
    it counts. *)
Definition windowOf (result : RawResult) (tPush tCutoff : Z) (s : App)
  : list Detection.t :=
  filter (fun d => tCutoff - detectionTimeout (settings s) <? Detection.timestamp d)
         (detectionHistory s ++ [pushed result tPush]).

Definition pruned (result : RawResult) (tPush tCutoff : Z) (s : App) : App :=
  set_detectionHistory (windowOf result tPush tCutoff s)
    (set_lastDetectedCode (Some (getText result)) s).

(** The fields the scan loop and the confirmation engine work with. *)
Definition scanSide (s : App) :=
  (isScanning s, detectionHistory s, settings s,
   (pendingFrames (host s), pendingDecodes (host s), decodeAttempts (host s))).

(** The product data [searchProduct] ends up displaying. *)
Definition lookedUp (code : string) (resp : FetchResult) : ProductData :=
  match searchOpenFoodFacts code resp with
  | Some found => found
  | None => createFallbackResult code
  end.

(** The links of the card shown for a code that was not found. *)
Definition fallbackAnchors (code : string) : list Html :=
  let google :=
    "https://www.google.com/search?q=" ++ encodeURIComponent P code
      ++ "+barcode+product" in
  [ Anchor (escapeHtml google) "View Original";
    Anchor (escapeHtml google) (escapeHtml "Google Search");
    Anchor (escapeHtml ("https://www.amazon.com/s?k="
                          ++ encodeURIComponent P code))
           (escapeHtml "Amazon Search");
    Anchor (escapeHtml ("https://www.upcitemdb.com/upc/"
                          ++ encodeURIComponent P code))
           (escapeHtml "UPC Database") ].

(** The product the new head carries when [processScan] suspends or
    returns: the fallback name if the search ran to its end at once, and
    nothing otherwise. *)
Definition productOnReturn (code : string) (s : App) : option string :=
  if autoSearch (settings s) && negb (isValidUPCorEAN code)
  then match productInfo (dom s) with
       | Some _ => Some ("Product Code: " ++ code)
       | None => None
       end
  else None.

(** ** The constructor and the settings dialog *)

(** The host a newly loaded page starts with: what local storage holds
    stays, nothing is scheduled. *)
Definition newSession (h : Host) : Host :=
  {| storageWorks := storageWorks h; storedHistory := storedHistory h;
     storedSettings := storedSettings h; pendingFrames := 0;
     pendingDecodes := 0; pendingLookups := []; decodeAttempts := 0 |}.

(** [loadSettings] and [loadHistory]: the stored value, [None] for a
    missing key, a text that does not parse, or a storage that raises. *)
Definition loadSettings (h : Host) : option Settings := storedSettings h.

Definition loadHistory (h : Host) : option (list Scan.t) := storedHistory h.

(** The constructor, up to the deferred [initializeApp]. *)
Definition construct (page : Dom) (h : Host) : App :=
  {| isScanning := false; codeReader := false; detectionHistory := [];
     lastDetectedCode := None; detectionCount := 0; scanStartTime := 0;
     frameCount := 0; debugMode := false; debugInterval := false;
     settings := match loadSettings h with
                 | Some stored => stored
                 | None => defaultSettings
                 end;
     scanHistory := match loadHistory h with
                    | Some stored => stored
                    | None => []
                    end;
     dom := page; host := h |}.

(** Loading the page again: a new application object over what the old
    one left in storage. *)
Definition reload (page : Dom) (s : App) : App :=
  construct page (newSession (host s)).

Definition set_checkbox (f : Checkbox -> option bool) (d : Dom) : Dom :=
  {| checkbox := f; manualCode := manualCode d;
     manualFormat := manualFormat d; scanner := scanner d;
     scannerCanvas := scannerCanvas d; productInfo := productInfo d |}.

(** The table [checkboxes] of [loadSettingsUI]. *)
Definition settingOf (st : Settings) (c : Checkbox) : bool :=
  match c with
  | cbAudioFeedback => audioFeedback st
  | cbAutoSearch => autoSearch st
  | cbRequireMultipleDetections => requireMultipleDetections st
  | cbFormatUPC => UPC (formats st)
  | cbFormatEAN => EAN (formats st)
  | cbFormatCode128 => Code128 (formats st)
  | cbFormatCode39 => Code39 (formats st)
  | cbFormatQR => QR (formats st)
  | cbFormatDataMatrix => DataMatrix (formats st)
  end.

(** [loadSettingsUI]: every check box that is in the page shows its
    setting. *)
Definition loadSettingsUI (s : App) : App :=
  set_dom (set_checkbox
             (fun c => match checkbox (dom s) c with
                       | Some _ => Some (settingOf (settings s) c)
                       | None => None
                       end)
             (dom s)) s.

(** ** Vocabulary of the further statements *)

(** Iterations of [scanLoop] that are under way: scheduled, or suspended
    in the decoder. *)
Definition loopsInFlight (s : App) : nat :=
  (pendingFrames (host s) + pendingDecodes (host s))%nat.

(** What a reload would read from storage is what the application
    holds. *)
Definition inSync (s : App) : Prop :=
  storageWorks (host s) = true
  /\ match loadHistory (host s) with
     | Some stored => stored
     | None => []
     end = scanHistory s
  /\ match loadSettings (host s) with
     | Some stored => stored
     | None => defaultSettings
     end = settings s.

(** A product that is either absent or a string that is not empty. *)
Definition properProduct (r : Scan.t) : bool :=
  match Scan.product r with
  | Some p => nonEmpty p
  | None => true
  end.

(** Is the first code unit of [s], if any, no white space. *)
Definition startsClean (s : string) : bool :=
  match s with
  | EmptyString => true
  | String c _ => negb (isWhiteSpace c)
  end.

(** The ways in which one event can change the history: not at all, by
    emptying it, by naming the product of its head, or by putting a new
    record in front (the 50th record dropping out). *)
Inductive HistoryStep (old : list Scan.t) : list Scan.t -> Prop :=
| HistoryKept : HistoryStep old old
| HistoryCleared : HistoryStep old []
| HeadNamed (head : Scan.t) (older : list Scan.t) (p : string) :
    old = head :: older ->
    nonEmpty p = true ->
    HistoryStep old (Scan.with_product (Some p) head :: older)
| RecordAdded (code format iso : string) (p : option string) :
    nonEmpty code = true ->
    p = None \/ p = Some ("Product Code: " ++ code) ->
    HistoryStep old (Scan.make code format iso p :: firstn 49 old).

(** The ways in which one event can change the list of lookups that are
    under way: not at all, by issuing one for a code of 8 to 14 digits,
    or by taking one off that has settled. *)
Inductive LookupStep (old : list string) : list string -> Prop :=
| LookupsKept : LookupStep old old
| LookupIssued (code : string) :
    isValidUPCorEAN code = true -> LookupStep old (old ++ [code])
| LookupSettled (code : string) (rest : list string) :
    takeLookup code old = Some rest -> LookupStep old rest.

(** The fields the scan loop leaves alone: history, settings, storage
    and the lookups under way. *)
Definition dataSide (s : App) :=
  (scanHistory s, settings s,
   (storageWorks (host s), storedHistory (host s), storedSettings (host s)),
   pendingLookups (host s)).

(** The application with [c] and [f] in the manual-entry form. *)
Definition withManual (c f : option string) (s : App) : App :=
  set_dom (set_manual c f (dom s)) s.

Definition isStop (e : Event) : bool :=
  match e with StopScanning => true | _ => false end.

(** The scan is flagged as running, yet no iteration of the loop is
    scheduled or suspended. *)
Definition stalled (s : App) : Prop :=
  isScanning s = true /\ loopsInFlight s = 0%nat.

(** A decoder answer that [scanLoop] treats as no code: a rejection, a
    falsy result, or a result with an empty text. *)
Definition isMiss (decoded : option RawResult) : bool :=
  match decoded with
  | Some result => negb (nonEmpty (getText result))
  | None => true
  end.

(** ** Sample data for the closed examples *)

(** A platform to evaluate examples with.  The strings of the clock are
    those of the two instants the examples use; the strings the examples
    escape or encode hold nothing that escaping or encoding changes. *)
Definition samplePlatform : Platform :=
  {| toISOString := fun ms =>
       if ms =? 1700000000000 then "2023-11-14T22:13:20.000Z"
       else if ms =? 1700000001000 then "2023-11-14T22:13:21.000Z"
       else "1970-01-01T00:00:00.000Z";
     textToHtml := fun text => text;
     encodeURIComponent := fun text => text;
     toUpperCase := fun text => text |}.

(** The application as its constructor leaves it when storage is empty,
    in a page that has every element, with the decoder loaded. *)
Definition freshApp : App :=
  {| isScanning := false; codeReader := true; detectionHistory := [];
     lastDetectedCode := None; detectionCount := 0; scanStartTime := 0;
     frameCount := 0; debugMode := false; debugInterval := false;
     settings := defaultSettings; scanHistory := [];
     dom := {| checkbox := fun _ => Some true; manualCode := Some "";
               manualFormat := Some "UPC-A"; scanner := Some true;
               scannerCanvas := true; productInfo := Some CardInitial |};
     host := {| storageWorks := true; storedHistory := None;
                storedSettings := None; pendingFrames := 0;
                pendingDecodes := 0; pendingLookups := [];
                decodeAttempts := 0 |} |}.

(** A decoder result for an EAN-13 code. *)
Definition sampleResult : RawResult :=
  {| getText := "5901234123457"; getBarcodeFormat := Some "EAN_13" |}.

(** An Open Food Facts product that has a name and nothing else. *)
Definition sampleProduct : OffProduct :=
  {| product_name := "Milk"; product_name_en := ""; brands := "";
     ingredients_text_en := ""; ingredients_text := ""; image_url := "";
     image_front_url := ""; off_categories := ""; nutrition_grades := "";
     off_labels := "" |}.

(** Case analysis on the first [match] or [if] of the goal. *)
Ltac break_match :=
  match goal with
  | |- context [match ?x with _ => _ end] => destruct x eqn:?
  end.

Ltac by_cases := repeat (cbn; try reflexivity; break_match).

(** * Properties *)

(** ** Fields that a method leaves alone *)

Lemma saveHistory_scanHistory (s : App) :
  scanHistory (saveHistory s) = scanHistory s.
Proof. unfold saveHistory; destruct (storageWorks (host s)); reflexivity. Qed.

Lemma saveHistory_dom (s : App) : dom (saveHistory s) = dom s.
Proof. unfold saveHistory; destruct (storageWorks (host s)); reflexivity. Qed.

Lemma scanSide_addToHistory (r : Scan.t) (s : App) :
  scanSide (addToHistory r s) = scanSide s.
Proof. unfold addToHistory, saveHistory, scanSide. by_cases. Qed.

Lemma scanSide_showResults (r : Scan.t) (s : App) :
  scanSide (showResults r s) = scanSide s.
Proof. unfold showResults, scanSide. by_cases. Qed.

Lemma scanSide_displayProductInfo (pd : option ProductData) (code : string)
    (s : App) :
  scanSide (displayProductInfo pd code s) = scanSide s.
Proof.
  unfold displayProductInfo, displayProductError, saveHistory, scanSide.
  by_cases.
Qed.

Lemma scanSide_searchProduct_resume (code : string) (resp : FetchResult)
    (s : App) :
  scanSide (searchProduct_resume code resp s) = scanSide s.
Proof. unfold searchProduct_resume. apply scanSide_displayProductInfo. Qed.

Lemma scanSide_searchProduct (code format : string) (s : App) :
  scanSide (searchProduct code format s) = scanSide s.
Proof.
  unfold searchProduct. destruct (isValidUPCorEAN code).
  - reflexivity.
  - apply scanSide_displayProductInfo.
Qed.

Lemma scanSide_processScan (code format : string) (now : Z) (s : App) :
  scanSide (processScan code format now s) = scanSide s.
Proof.
  unfold processScan.
  destruct (autoSearch _).
  - rewrite scanSide_searchProduct, scanSide_showResults.
    apply scanSide_addToHistory.
  - rewrite scanSide_showResults. apply scanSide_addToHistory.
Qed.

Lemma scanSide_fields (a b : App) :
  scanSide a = scanSide b ->
  isScanning a = isScanning b /\ detectionHistory a = detectionHistory b
  /\ settings a = settings b
  /\ pendingFrames (host a) = pendingFrames (host b)
  /\ pendingDecodes (host a) = pendingDecodes (host b)
  /\ decodeAttempts (host a) = decodeAttempts (host b).
Proof. unfold scanSide. intros H. injection H. tauto. Qed.

Lemma stopScanning_fields (s : App) :
  let s' := stopScanning s in
  isScanning s' = false /\ detectionHistory s' = detectionHistory s
  /\ settings s' = settings s /\ scanHistory s' = scanHistory s
  /\ dom s' = dom s /\ host s' = host s.
Proof.
  unfold stopScanning. destruct (isScanning s) eqn:E; cbn; auto 10.
Qed.

Lemma confirmDetection_fields (code format : string) (now : Z) (s : App) :
  let s' := confirmDetection code format now s in
  isScanning s' = false /\ detectionHistory s' = detectionHistory s
  /\ settings s' = settings s
  /\ pendingFrames (host s') = pendingFrames (host s)
  /\ pendingDecodes (host s') = pendingDecodes (host s)
  /\ decodeAttempts (host s') = decodeAttempts (host s).
Proof.
  unfold confirmDetection.
  destruct (scanSide_fields _ _ (scanSide_processScan code format now
                                   (stopScanning s)))
    as (H1 & H2 & H3 & H4 & H5 & H6).
  destruct (stopScanning_fields s) as (G1 & G2 & G3 & _ & _ & G6).
  cbn. rewrite H1, H2, H3, H4, H5, H6, G1, G2, G3, G6. auto 10.
Qed.

(** ** The confirmation engine *)

Lemma handleDetection_eq (result : RawResult) (tPush tCutoff tScan : Z)
    (s : App) :
  handleDetection result tPush tCutoff tScan s =
  if negb (requireMultipleDetections (settings s))
     || (minDetections (settings s)
         <=? Z.of_nat (countCode (getText result)
                         (windowOf result tPush tCutoff s)))
  then (Confirmed (getText result) (formatOf result),
        confirmDetection (getText result) (formatOf result) tScan
          (pruned result tPush tCutoff s))
  else (Pending, pruned result tPush tCutoff s).
Proof.
  unfold handleDetection, pruned, windowOf, countCode, pushed, formatOf. cbn.
  destruct (requireMultipleDetections (settings s)); cbn; [|reflexivity].
  destruct (minDetections (settings s) <=? _); reflexivity.
Qed.

(** The window [handleDetection] leaves behind is the old window with the
    new entry appended, filtered by the cutoff; confirming does not touch
    it. *)
Lemma handleDetection_window (result : RawResult) (tPush tCutoff tScan : Z)
    (s : App) :
  detectionHistory (snd (handleDetection result tPush tCutoff tScan s)) =
  windowOf result tPush tCutoff s.
Proof.
  rewrite handleDetection_eq.
  destruct (negb _ || _); cbn; [|reflexivity].
  destruct (confirmDetection_fields (getText result) (formatOf result) tScan
              (pruned result tPush tCutoff s)) as (_ & H & _).
  exact H.
Qed.

Lemma handleDetection_settings (result : RawResult) (tPush tCutoff tScan : Z)
    (s : App) :
  settings (snd (handleDetection result tPush tCutoff tScan s)) = settings s.
Proof.
  rewrite handleDetection_eq.
  destruct (negb _ || _); cbn; [|reflexivity].
  destruct (confirmDetection_fields (getText result) (formatOf result) tScan
              (pruned result tPush tCutoff s)) as (_ & _ & H & _).
  exact H.
Qed.

Lemma handleDetection_outcome (result : RawResult) (tPush tCutoff tScan : Z)
    (s : App) :
  fst (handleDetection result tPush tCutoff tScan s) =
  if negb (requireMultipleDetections (settings s))
     || (minDetections (settings s)
         <=? Z.of_nat (countCode (getText result)
                         (windowOf result tPush tCutoff s)))
  then Confirmed (getText result) (formatOf result)
  else Pending.
Proof. rewrite handleDetection_eq. destruct (negb _ || _); reflexivity. Qed.

Lemma countCode_single (code : string) (d : Detection.t) :
  (countCode code [d] <= 1)%nat.
Proof.
  unfold countCode. cbn. destruct (String.eqb _ _); cbn; lia.
Qed.

(** A single observation in an empty window counts at most one. *)
Lemma windowOf_empty_count (result : RawResult) (tPush tCutoff : Z) (s : App) :
  detectionHistory s = [] ->
  (countCode (getText result) (windowOf result tPush tCutoff s) <= 1)%nat.
Proof.
  intros E. unfold windowOf. rewrite E. cbn.
  destruct (_ <? _).
  - apply countCode_single.
  - unfold countCode. cbn. lia.
Qed.

(** C1. [handleDetection] confirms exactly when multiple detections are
    not required or the pruned window it leaves holds at least
    [minDetections] entries with the observed code, and reports Pending
    otherwise.  From an empty window with two required detections, one
    observation stays pending and a second one of the same code within
    the timeout confirms; when multiple detections are not required every
    observation confirms. *)
Theorem handleDetection_confirmation_rule :
  (forall (s : App) (result : RawResult) (tPush tCutoff tScan : Z),
      let after := handleDetection result tPush tCutoff tScan s in
      let window := detectionHistory (snd after) in
      let enough :=
        requireMultipleDetections (settings s) = false
        \/ minDetections (settings s)
           <= Z.of_nat (countCode (getText result) window) in
      window =
        filter (fun d => tCutoff - detectionTimeout (settings s)
                         <? Detection.timestamp d)
               (detectionHistory s ++ [pushed result tPush])
      /\ (fst after = Confirmed (getText result) (formatOf result) <-> enough)
      /\ (fst after = Pending <-> ~ enough))
  /\ (forall (s : App) (result : RawResult) (tPush tCutoff tScan : Z),
         detectionHistory s = [] ->
         requireMultipleDetections (settings s) = true ->
         minDetections (settings s) = 2 ->
         fst (handleDetection result tPush tCutoff tScan s) = Pending)
  /\ (forall (s : App) (r1 r2 : RawResult)
             (t1 t1c t1s t2 t2c t2s : Z),
         detectionHistory s = [] ->
         requireMultipleDetections (settings s) = true ->
         minDetections (settings s) = 2 ->
         getText r1 = getText r2 ->
         t1 <= t1c -> t1c <= t2 -> t2 <= t2c ->
         t2c - t1 < detectionTimeout (settings s) ->
         let first := handleDetection r1 t1 t1c t1s s in
         let second := handleDetection r2 t2 t2c t2s (snd first) in
         fst first = Pending
         /\ fst second = Confirmed (getText r2) (formatOf r2))
  /\ (forall (s : App) (result : RawResult) (tPush tCutoff tScan : Z),
         requireMultipleDetections (settings s) = false ->
         fst (handleDetection result tPush tCutoff tScan s)
         = Confirmed (getText result) (formatOf result)).
Proof.
  split; [|split; [|split]].
  - intros s result tPush tCutoff tScan after window enough.
    subst enough window after.
    rewrite handleDetection_window, handleDetection_outcome.
    split; [reflexivity|].
    destruct (requireMultipleDetections (settings s)); cbn.
    + destruct (Z.leb_spec (minDetections (settings s))
                  (Z.of_nat (countCode (getText result)
                               (windowOf result tPush tCutoff s)))) as [L|L].
      * split; split; intros H; auto; try discriminate.
        exfalso; apply H; auto.
      * split; split; intros H; auto; try discriminate.
        -- destruct H as [H|H]; [discriminate|lia].
        -- intros [G|G]; [discriminate|lia].
    + split; split; intros H; auto; try discriminate.
      exfalso; apply H; auto.
  - intros s result tPush tCutoff tScan E R M.
    rewrite handleDetection_outcome, R, M. cbn [negb orb].
    pose proof (windowOf_empty_count result tPush tCutoff s E) as C.
    destruct (Z.leb_spec 2 (Z.of_nat (countCode (getText result)
                                        (windowOf result tPush tCutoff s))));
      [lia|reflexivity].
  - intros s r1 r2 t1 t1c t1s t2 t2c t2s E R M X L1 L2 L3 T first second.
    subst second first.
    assert (W1 : windowOf r1 t1 t1c s = [pushed r1 t1]).
    { unfold windowOf. rewrite E. cbn.
      destruct (Z.ltb_spec (t1c - detectionTimeout (settings s)) t1);
        [reflexivity|lia]. }
    split.
    + rewrite handleDetection_outcome, R, M, W1. cbn [negb orb].
      pose proof (countCode_single (getText r1) (pushed r1 t1)) as C.
      destruct (Z.leb_spec 2 (Z.of_nat (countCode (getText r1) [pushed r1 t1])));
        [lia|reflexivity].
    + rewrite handleDetection_outcome, handleDetection_settings, R, M.
      unfold windowOf.
      rewrite handleDetection_settings, handleDetection_window, W1. cbn.
      destruct (Z.ltb_spec (t2c - detectionTimeout (settings s)) t1); [|lia].
      destruct (Z.ltb_spec (t2c - detectionTimeout (settings s)) t2); [|lia].
      unfold countCode. cbn. rewrite X, String.eqb_refl. cbn. reflexivity.
  - intros s result tPush tCutoff tScan R.
    rewrite handleDetection_outcome, R. reflexivity.
Qed.

(** C3. After the pruning step of [handleDetection] every entry kept in
    the window was observed less than [detectionTimeout] before the
    cutoff reading of the clock, and the kept entries are exactly such
    entries of the old window and the pushed one. *)
Theorem handleDetection_window_is_recent :
  forall (s : App) (result : RawResult) (tPush tCutoff tScan : Z),
    let window :=
      detectionHistory (snd (handleDetection result tPush tCutoff tScan s)) in
    Forall (fun d => tCutoff - Detection.timestamp d
                     < detectionTimeout (settings s)) window
    /\ Forall (fun d => Detection.timestamp d
                        > tCutoff - detectionTimeout (settings s)) window
    /\ (forall d : Detection.t,
           In d window <->
           In d (detectionHistory s ++ [pushed result tPush])
           /\ tCutoff - Detection.timestamp d < detectionTimeout (settings s)).
Proof.
  intros s result tPush tCutoff tScan window. subst window.
  rewrite handleDetection_window. unfold windowOf.
  assert (K : forall d : Detection.t,
             In d (filter (fun d => tCutoff - detectionTimeout (settings s)
                                    <? Detection.timestamp d)
                     (detectionHistory s ++ [pushed result tPush])) <->
             In d (detectionHistory s ++ [pushed result tPush])
             /\ tCutoff - Detection.timestamp d < detectionTimeout (settings s)).
  { intros d. rewrite filter_In, Z.ltb_lt. split; intros [H1 H2]; split; auto; lia. }
  split; [|split].
  - apply Forall_forall. intros d H. apply K in H. tauto.
  - apply Forall_forall. intros d H. apply K in H. lia.
  - exact K.
Qed.

(** ** Restarting the scan *)

Lemma nextFrame_fields (s : App) :
  let s' := nextFrame s in
  isScanning s' = isScanning s /\ detectionHistory s' = detectionHistory s
  /\ settings s' = settings s
  /\ decodeAttempts (host s') = decodeAttempts (host s)
  /\ pendingFrames (host s')
     = if isScanning s then S (pendingFrames (host s))
       else pendingFrames (host s).
Proof.
  unfold nextFrame, continueScanning. cbn.
  destruct (isScanning s) eqn:E; cbn; rewrite ?E; auto.
Qed.

Lemma scanLoop_fields (frame : Frame) (s : App) :
  let s' := scanLoop frame s in
  isScanning s' = isScanning s /\ detectionHistory s' = detectionHistory s
  /\ settings s' = settings s.
Proof.
  unfold scanLoop, nextFrame, continueScanning. cbn.
  destruct (isScanning s) eqn:E; cbn; [|auto].
  destruct (scanner (dom s)); [|cbn; auto].
  destruct (scannerCanvas (dom s)); [|cbn; auto].
  destruct frame; cbn; rewrite ?E; try destruct (codeReader s); cbn; auto.
Qed.

Lemma startScanning_resets (now : Z) (frame : Frame) (s : App) :
  isScanning s = false ->
  detectionHistory (startScanning now frame s) = []
  /\ settings (startScanning now frame s) = settings s.
Proof.
  intros E. unfold startScanning. rewrite E.
  destruct (scanner _) as [[|]|] eqn:V.
  - match goal with
    | |- context [scanLoop frame ?x] =>
        destruct (scanLoop_fields frame x) as (_ & H1 & H2)
    end.
    destruct (debugMode _); cbn; cbn in H1, H2; rewrite H1, H2; auto.
  - cbn. auto.
  - cbn. auto.
Qed.

(** C2, as the code has it.  A confirmation stops the scan and leaves the
    pruned window in place; the window is emptied by the next
    [startScanning], after which one observation alone cannot reach a
    threshold of two or more. *)
Theorem confirm_keeps_window_restart_clears :
  forall (s : App) (result : RawResult) (tPush tCutoff tScan : Z)
         (code format : string),
    fst (handleDetection result tPush tCutoff tScan s) = Confirmed code format ->
    let after := snd (handleDetection result tPush tCutoff tScan s) in
    isScanning after = false
    /\ detectionHistory after =
       filter (fun d => tCutoff - detectionTimeout (settings s)
                        <? Detection.timestamp d)
              (detectionHistory s ++ [pushed result tPush])
    /\ (forall (now : Z) (frame : Frame),
           let restarted := startScanning now frame after in
           detectionHistory restarted = []
           /\ (forall (next : RawResult) (uPush uCutoff uScan : Z),
                  requireMultipleDetections (settings s) = true ->
                  2 <= minDetections (settings s) ->
                  fst (handleDetection next uPush uCutoff uScan restarted)
                  = Pending)).
Proof.
  intros s result tPush tCutoff tScan code format C after.
  assert (Stopped : isScanning after = false).
  { subst after. revert C. rewrite handleDetection_eq.
    destruct (negb _ || _); cbn; [|discriminate].
    intros _.
    destruct (confirmDetection_fields (getText result) (formatOf result) tScan
                (pruned result tPush tCutoff s)) as (H & _).
    exact H. }
  split; [exact Stopped|].
  split; [subst after; apply handleDetection_window|].
  intros now frame restarted.
  destruct (startScanning_resets now frame after Stopped) as [W S'].
  split; [exact W|].
  intros next uPush uCutoff uScan R M.
  rewrite handleDetection_outcome. fold restarted in W, S'.
  pose proof (windowOf_empty_count next uPush uCutoff restarted W) as Cnt.
  rewrite S'. subst after. rewrite handleDetection_settings, R.
  cbn [negb orb].
  destruct (Z.leb_spec (minDetections (settings s))
              (Z.of_nat (countCode (getText next)
                           (windowOf next uPush uCutoff restarted))));
    [lia|reflexivity].
Qed.

(** ** The history store *)

Lemma addToHistory_scanHistory (r : Scan.t) (s : App) :
  scanHistory (addToHistory r s) = firstn 50 (r :: scanHistory s).
Proof.
  unfold addToHistory. rewrite saveHistory_scanHistory.
  destruct (Nat.ltb_spec 50 (List.length (r :: scanHistory s))) as [L|L].
  - reflexivity.
  - cbn [scanHistory set_scanHistory]. symmetry. apply firstn_all2. exact L.
Qed.

Lemma firstn_app_firstn {A : Type} (n : nat) (l1 l2 : list A) :
  firstn n (l1 ++ firstn n l2) = firstn n (l1 ++ l2).
Proof.
  rewrite !firstn_app, firstn_firstn. f_equal. f_equal. lia.
Qed.

Lemma addAll_scanHistory (rs : list Scan.t) (s : App) :
  rs <> [] \/ (List.length (scanHistory s) <= 50)%nat ->
  scanHistory (addAll rs s) = firstn 50 (rev rs ++ scanHistory s).
Proof.
  unfold addAll. revert s.
  induction rs as [|r rs IH]; intros s H.
  - cbn [fold_left rev app]. destruct H as [H|H]; [congruence|].
    symmetry. apply firstn_all2. exact H.
  - cbn [fold_left]. rewrite IH.
    + rewrite addToHistory_scanHistory, firstn_app_firstn.
      cbn [rev]. rewrite <- app_assoc. reflexivity.
    + right. rewrite addToHistory_scanHistory.
      rewrite length_firstn. lia.
Qed.

(** C4. After [addToHistory] the history holds at most 50 records, the
    added record is its head and the records that were there follow it
    in their old order; when 50 records were there the last (oldest) one
    is dropped.  The same holds after any run of additions. *)
Theorem addToHistory_bounded_most_recent_first :
  (forall (r : Scan.t) (s : App),
      let h := scanHistory (addToHistory r s) in
      (List.length h <= 50)%nat
      /\ hd_error h = Some r
      /\ h = firstn 50 (r :: scanHistory s)
      /\ ((List.length (scanHistory s) < 50)%nat -> h = r :: scanHistory s)
      /\ (List.length (scanHistory s) = 50%nat ->
          h = r :: removelast (scanHistory s)))
  /\ (forall (rs : list Scan.t) (s : App),
         (List.length (scanHistory s) <= 50)%nat ->
         let h := scanHistory (addAll rs s) in
         (List.length h <= 50)%nat
         /\ h = firstn 50 (rev rs ++ scanHistory s)).
Proof.
  split.
  - intros r s h. subst h. rewrite addToHistory_scanHistory.
    split; [rewrite length_firstn; lia|].
    split; [reflexivity|].
    split; [reflexivity|].
    split.
    + intros L. apply firstn_all2. cbn. lia.
    + intros L. cbn [firstn]. f_equal.
      rewrite removelast_firstn_len, L. reflexivity.
  - intros rs s B h. subst h.
    rewrite addAll_scanHistory by (right; exact B).
    split; [rewrite length_firstn; lia|reflexivity].
Qed.

(** ** Stopping the scan loop *)

Lemma scanSide_clearHistory (confirmed : bool) (s : App) :
  scanSide (clearHistory confirmed s) = scanSide s.
Proof. unfold clearHistory, saveHistory, scanSide. by_cases. Qed.

Lemma scanSide_showHistoryDetails (index : nat) (s : App) :
  scanSide (showHistoryDetails index s) = scanSide s.
Proof.
  unfold showHistoryDetails.
  destruct (nth_error _ _) as [scan|]; [|reflexivity].
  destruct (Scan.product scan) as [product|];
    [destruct (nonEmpty product)|];
    rewrite ?scanSide_displayProductInfo; apply scanSide_showResults.
Qed.

Lemma scanSide_submitManualCode (now : Z) (s : App) :
  scanSide (snd (submitManualCode now s)) = scanSide s.
Proof.
  unfold submitManualCode.
  destruct (manualCode _) as [value|]; [|reflexivity].
  destruct (manualFormat _) as [format|]; [|reflexivity].
  destruct (nonEmpty _); [|reflexivity].
  cbn [snd]. rewrite <- (scanSide_processScan (trim value) format now s).
  reflexivity.
Qed.

(** The state of the loop: the running flag, the scheduled callbacks and
    the number of decode attempts made. *)
Lemma scanSide_loop (a b : App) :
  scanSide a = scanSide b ->
  isScanning a = isScanning b
  /\ decodeAttempts (host a) = decodeAttempts (host b)
  /\ pendingFrames (host a) = pendingFrames (host b).
Proof. intros H. apply scanSide_fields in H. tauto. Qed.

(** Once the flag is down, nothing but [startScanning] raises it, no
    callback decodes and none reschedules the loop. *)
Lemma dispatch_while_stopped (e : Event) (s : App) :
  isStart e = false ->
  isScanning s = false ->
  isScanning (dispatch e s) = false
  /\ decodeAttempts (host (dispatch e s)) = decodeAttempts (host s)
  /\ (pendingFrames (host (dispatch e s)) <= pendingFrames (host s))%nat.
Proof.
  intros NS E.
  destruct e as [frame|decoded tPush tCutoff tScan|code resp|now frame|
                 |value format|now| |confirmed|index| |];
    cbn [dispatch]; try discriminate NS.
  - destruct (pendingFrames (host s)) as [|n] eqn:F.
    + rewrite F. auto.
    + unfold scanLoop. cbn. rewrite E. cbn. auto.
  - destruct (pendingDecodes (host s)) as [|n]; [auto|].
    set (x := set_host _ s).
    assert (Ex : isScanning x = false) by exact E.
    change (decodeAttempts (host s)) with (decodeAttempts (host x)).
    change (pendingFrames (host s)) with (pendingFrames (host x)).
    clearbody x. clear E s NS.
    unfold scanLoop_resume.
    assert (N : isScanning (nextFrame x) = false
                /\ decodeAttempts (host (nextFrame x)) = decodeAttempts (host x)
                /\ (pendingFrames (host (nextFrame x))
                    <= pendingFrames (host x))%nat).
    { destruct (nextFrame_fields x) as (H1 & _ & _ & H4 & H5).
      cbn zeta in H1, H4, H5. rewrite H1, H4, H5, Ex. auto. }
    destruct decoded as [result|]; [|exact N].
    destruct (nonEmpty _); [|exact N].
    rewrite handleDetection_eq.
    destruct (negb _ || _); cbn [snd].
    + destruct (confirmDetection_fields (getText result) (formatOf result)
                  tScan (pruned result tPush tCutoff x))
        as (H1 & _ & _ & H4 & _ & H6).
      cbn zeta in H1, H4, H6. rewrite H1, H4, H6. cbn. auto.
    + cbn. auto.
  - destruct (takeLookup _ _) as [rest|]; [|auto].
    destruct (scanSide_loop _ _
                (scanSide_searchProduct_resume code resp
                   (set_host (set_pendingLookups rest (host s)) s)))
      as (H1 & H2 & H3).
    rewrite H1, H2, H3. cbn. auto.
  - unfold stopScanning. rewrite E. auto.
  - cbn. auto.
  - destruct (scanSide_loop _ _ (scanSide_submitManualCode now s))
      as (H1 & H2 & H3).
    rewrite H1, H2, H3. auto.
  - unfold updateSettings, saveSettings. cbn.
    destruct (storageWorks (host s)); cbn; auto.
  - destruct (scanSide_loop _ _ (scanSide_clearHistory confirmed s))
      as (H1 & H2 & H3).
    rewrite H1, H2, H3. auto.
  - destruct (scanSide_loop _ _ (scanSide_showHistoryDetails index s))
      as (H1 & H2 & H3).
    rewrite H1, H2, H3. auto.
  - cbn. auto.
  - cbn. auto.
Qed.

(** A detection ends its iteration of the loop whether it confirms or
    stays pending: [scanLoop] returns right after [handleDetection], and
    no further frame is requested. *)
Lemma detection_ends_iteration (result : RawResult) (tPush tCutoff tScan : Z)
    (s : App) :
  nonEmpty (getText result) = true ->
  pendingFrames (host (scanLoop_resume (Some result) tPush tCutoff tScan s))
  = pendingFrames (host s).
Proof.
  intros NE. unfold scanLoop_resume. rewrite NE, handleDetection_eq.
  destruct (negb _ || _); cbn [snd]; [|reflexivity].
  destruct (confirmDetection_fields (getText result) (formatOf result) tScan
              (pruned result tPush tCutoff s)) as (_ & _ & _ & H & _).
  exact H.
Qed.

Lemma run_while_stopped (events : list Event) (s : App) :
  Forall (fun e => isStart e = false) events ->
  isScanning s = false ->
  isScanning (run events s) = false
  /\ decodeAttempts (host (run events s)) = decodeAttempts (host s)
  /\ (pendingFrames (host (run events s)) <= pendingFrames (host s))%nat.
Proof.
  unfold run. intros NS. revert s.
  induction NS as [|e events He _ IH]; intros s E.
  - cbn. auto.
  - cbn [fold_left].
    destruct (dispatch_while_stopped e s He E) as (H1 & H2 & H3).
    destruct (IH _ H1) as (G1 & G2 & G3).
    rewrite G1, G2, <- H2. split; [reflexivity|]. split; [reflexivity|lia].
Qed.

(** C5. [stopScanning] does nothing when the scan is not running and is
    idempotent; an iteration of [scanLoop] that finds the flag down
    neither decodes nor reschedules, and the rescheduling step is guarded
    by the flag as well.  Hence after [stopScanning], whatever callbacks
    and user actions follow short of a new [startScanning], no decode is
    attempted and no further iteration is scheduled. *)
Theorem stopScanning_halts_scanLoop :
  (forall s : App, isScanning s = false -> stopScanning s = s)
  /\ (forall s : App, stopScanning (stopScanning s) = stopScanning s)
  /\ (forall (s : App) (frame : Frame),
         isScanning s = false -> scanLoop frame s = s)
  /\ (forall s : App, isScanning s = false -> continueScanning s = s)
  /\ (forall (s : App) (frame : Frame),
         let s' := dispatch (AnimationFrame frame) (stopScanning s) in
         decodeAttempts (host s') = decodeAttempts (host s)
         /\ pendingFrames (host s') = pred (pendingFrames (host s)))
  /\ (forall (s : App) (events : list Event),
         Forall (fun e => isStart e = false) events ->
         let s' := run events (stopScanning s) in
         isScanning s' = false
         /\ decodeAttempts (host s') = decodeAttempts (host s)
         /\ (pendingFrames (host s') <= pendingFrames (host s))%nat).
Proof.
  assert (Noop : forall s : App, isScanning s = false -> stopScanning s = s).
  { intros s E. unfold stopScanning. rewrite E. reflexivity. }
  assert (Down : forall s : App, isScanning (stopScanning s) = false).
  { intros s. apply (stopScanning_fields s). }
  assert (Host : forall s : App, host (stopScanning s) = host s).
  { intros s. apply (stopScanning_fields s). }
  split; [exact Noop|].
  split; [intros s; apply Noop, Down|].
  split; [intros s frame E; unfold scanLoop; rewrite E; reflexivity|].
  split; [intros s E; unfold continueScanning; rewrite E; reflexivity|].
  split.
  - intros s frame s'. subst s'. cbn [dispatch]. rewrite Host.
    destruct (pendingFrames (host s)) as [|n] eqn:F.
    + rewrite Host, F. auto.
    + unfold scanLoop. cbn. rewrite Down. cbn. rewrite ?Host. auto.
  - intros s events NS s'. subst s'.
    destruct (run_while_stopped events (stopScanning s) NS (Down s))
      as (H1 & H2 & H3).
    rewrite Host in H2, H3. auto.
Qed.

(** ** Back-filling the product *)

(** What [displayProductInfo] does to the history: with [#productInfo] in
    the page and a history that is not empty, the head gets the name of
    the product; [code] plays no part. *)
Lemma displayProductInfo_scanHistory (pd : ProductData) (code : string)
    (s : App) :
  scanHistory (displayProductInfo (Some pd) code s) =
  match productInfo (dom s), scanHistory s with
  | Some _, head :: older => Scan.with_product (Some (name pd)) head :: older
  | _, _ => scanHistory s
  end.
Proof.
  unfold displayProductInfo.
  destruct (productInfo (dom s)); [|reflexivity].
  cbv zeta. change (scanHistory (set_dom ?d s)) with (scanHistory s).
  destruct (scanHistory s) eqn:H; [exact H|].
  rewrite saveHistory_scanHistory. reflexivity.
Qed.

Lemma displayProductInfo_card (pd : ProductData) (code : string) (s : App) :
  productInfo (dom (displayProductInfo (Some pd) code s)) =
  match productInfo (dom s) with
  | Some _ => Some (CardProduct (cardBody pd) (cardLinks pd))
  | None => None
  end.
Proof.
  unfold displayProductInfo.
  destruct (productInfo (dom s)) eqn:E; [|exact E].
  cbv zeta. change (scanHistory (set_dom ?d s)) with (scanHistory s).
  destruct (scanHistory s); [reflexivity|].
  rewrite saveHistory_dom. reflexivity.
Qed.

(** C6, as the code has it.  When a lookup completes, the history keeps
    its length, every record but the head is unchanged, and the head
    keeps its code, format and timestamp.  With [#productInfo] in the
    page the head's product becomes the name of the product found (or of
    the fallback), whether or not the head carries the code the lookup
    was issued for; without it the history is unchanged. *)
Theorem lookup_backfills_head_only :
  forall (s : App) (code : string) (resp : FetchResult),
    let s' := dispatch (FetchSettled code resp) s in
    List.length (scanHistory s') = List.length (scanHistory s)
    /\ tl (scanHistory s') = tl (scanHistory s)
    /\ (forall head older,
           scanHistory s = head :: older ->
           exists p, scanHistory s' = Scan.with_product p head :: older)
    /\ (forall head older card,
           In code (pendingLookups (host s)) ->
           productInfo (dom s) = Some card ->
           scanHistory s = head :: older ->
           scanHistory s'
           = Scan.with_product (Some (name (lookedUp code resp))) head :: older)
    /\ (productInfo (dom s) = None -> scanHistory s' = scanHistory s).
Proof.
  intros s code resp s'. subst s'. cbn [dispatch].
  assert (In_take : In code (pendingLookups (host s)) ->
                    takeLookup code (pendingLookups (host s)) <> None).
  { generalize (pendingLookups (host s)) as l.
    induction l as [|c l IH]; intros H; [destruct H|].
    cbn. destruct (String.eqb_spec c code) as [Q|Q]; [discriminate|].
    destruct H as [H|H]; [congruence|].
    specialize (IH H). destruct (takeLookup code l); [discriminate|congruence]. }
  destruct (takeLookup code (pendingLookups (host s))) as [rest|].
  - unfold searchProduct_resume. fold (lookedUp code resp).
    rewrite displayProductInfo_scanHistory.
    cbn [dom scanHistory set_host].
    destruct (productInfo (dom s)) as [c|];
      destruct (scanHistory s) as [|h o];
      (split; [reflexivity|]); (split; [reflexivity|]);
      (split; [|split]); intros; try discriminate; try reflexivity.
    + exists (Some (name (lookedUp code resp))). congruence.
    + congruence.
    + match goal with H : _ :: _ = _ :: _ |- _ => injection H as <- <- end.
      exists (Scan.product h). destruct h. reflexivity.
  - split; [reflexivity|]. split; [reflexivity|].
    split; [|split]; intros; try reflexivity.
    + exists (Scan.product head). destruct head. assumption.
    + exfalso. apply In_take; auto.
Qed.

(** C7, as the code has it.  When the lookup of a code finds nothing,
    the card put into [#productInfo] carries the fallback search links,
    and the head of the history gets the fallback name
    ["Product Code: " ++ code] as its product. *)
Theorem notFound_shows_links_and_names_head :
  forall (s : App) (code : string) (resp : FetchResult)
         (card : Card) (head : Scan.t) (older : list Scan.t),
    searchOpenFoodFacts code resp = None ->
    productInfo (dom s) = Some card ->
    scanHistory s = head :: older ->
    let s' := searchProduct_resume code resp s in
    productInfo (dom s')
    = Some (CardProduct (cardBody (createFallbackResult code))
                        (fallbackAnchors code))
    /\ scanHistory s'
       = Scan.with_product (Some ("Product Code: " ++ code)) head :: older.
Proof.
  intros s code resp card head older NF C H s'. subst s'.
  unfold searchProduct_resume. rewrite NF.
  rewrite displayProductInfo_card, displayProductInfo_scanHistory, C, H.
  split; reflexivity.
Qed.

(** ** Manual entry *)

Lemma nonEmpty_false (s : string) : nonEmpty s = false <-> s = "".
Proof. destruct s; cbn; split; congruence. Qed.

Lemma trimEnd_empty (s : string) : trimEnd s = "" <-> blank s = true.
Proof.
  unfold blank. induction s as [|c rest IH]; cbn.
  - tauto.
  - destruct (trimEnd rest) eqn:T.
    + destruct (isWhiteSpace c); cbn.
      * tauto.
      * split; discriminate.
    + split; [discriminate|].
      intros H. apply andb_true_iff in H. destruct H as [_ H].
      apply IH in H. discriminate.
Qed.

Lemma trimStart_blank (s : string) : blank s = true -> trimStart s = "".
Proof.
  unfold blank. induction s as [|c rest IH]; cbn; [reflexivity|].
  intros H. apply andb_true_iff in H. destruct H as [W H].
  rewrite W. auto.
Qed.

Lemma trimStart_keeps_blankness (s : string) :
  blank (trimStart s) = blank s.
Proof.
  unfold blank. induction s as [|c rest IH]; cbn; [reflexivity|].
  destruct (isWhiteSpace c) eqn:W; cbn; [exact IH|].
  rewrite W. reflexivity.
Qed.

(** A value trims to the empty string exactly when it consists of white
    space only. *)
Lemma trim_empty (value : string) : trim value = "" <-> blank value = true.
Proof.
  unfold trim. rewrite trimEnd_empty, trimStart_keeps_blankness. tauto.
Qed.

(** C8. With a value in the form that is blank after trimming (empty, or
    white space only), [submitManualCode] reports the empty-code error and
    returns the application unchanged: no record is added to the history,
    in memory or in storage, and no lookup is started. *)
Theorem submitManualCode_rejects_blank :
  forall (s : App) (now : Z) (value format : string),
    manualCode (dom s) = Some value ->
    manualFormat (dom s) = Some format ->
    (trim value = "" <-> blank value = true)
    /\ (trim value = "" ->
        let after := submitManualCode now s in
        fst after = EmptyCodeError
        /\ snd after = s
        /\ scanHistory (snd after) = scanHistory s
        /\ storedHistory (host (snd after)) = storedHistory (host s)
        /\ pendingLookups (host (snd after)) = pendingLookups (host s)
        /\ dispatch (SubmitManual now) s = s).
Proof.
  intros s now value format C F.
  split; [apply trim_empty|].
  intros T. cbn [dispatch]. unfold submitManualCode.
  rewrite C, F, T. cbn. auto 10.
Qed.

(** ** Recording a scan *)

Lemma showResults_scanHistory (r : Scan.t) (s : App) :
  scanHistory (showResults r s) = scanHistory s.
Proof. unfold showResults. destruct (productInfo (dom s)); reflexivity. Qed.

Lemma showResults_settings (r : Scan.t) (s : App) :
  settings (showResults r s) = settings s.
Proof. unfold showResults. destruct (productInfo (dom s)); reflexivity. Qed.

Lemma showResults_productInfo (r : Scan.t) (s : App) :
  productInfo (dom (showResults r s))
  = option_map (fun _ => CardLoading) (productInfo (dom s)).
Proof.
  unfold showResults. destruct (productInfo (dom s)) eqn:E; cbn; auto.
Qed.

Lemma addToHistory_dom (r : Scan.t) (s : App) :
  dom (addToHistory r s) = dom s.
Proof.
  unfold addToHistory. rewrite saveHistory_dom.
  destruct (_ <? _)%nat; reflexivity.
Qed.

Lemma addToHistory_head (r : Scan.t) (s : App) :
  scanHistory (addToHistory r s) = r :: firstn 49 (scanHistory s).
Proof. rewrite addToHistory_scanHistory. reflexivity. Qed.

Lemma processScan_scanHistory (code format : string) (now : Z) (s : App) :
  scanHistory (processScan code format now s)
  = Scan.with_product (productOnReturn code s) (newScanData code format now)
      :: firstn 49 (scanHistory s).
Proof.
  unfold processScan, productOnReturn.
  rewrite showResults_settings.
  destruct (scanSide_fields _ _ (scanSide_addToHistory
                                   (newScanData code format now) s))
    as (_ & _ & -> & _).
  destruct (autoSearch (settings s)); cbn [andb].
  - unfold searchProduct. destruct (isValidUPCorEAN code); cbn [negb].
    + cbn [scanHistory set_host].
      rewrite showResults_scanHistory. apply addToHistory_head.
    + rewrite displayProductInfo_scanHistory, showResults_productInfo,
        showResults_scanHistory, addToHistory_dom, addToHistory_head.
      destruct (productInfo (dom s)); reflexivity.
  - rewrite showResults_scanHistory. apply addToHistory_head.
Qed.

(** C9. With a value in the form that is not blank after trimming,
    [submitManualCode] submits the trimmed code with the selected format:
    the record created for it carries that code and format, the ISO
    string of the clock reading and no product, and it is put in front
    of the history (the 50th record, if any, drops out).  On return the
    head is that record; its product is still empty unless the search
    already ended with the fallback, which happens at once for a code
    that is not 8 to 14 digits when automatic search is on. *)
Theorem submitManualCode_prepends_record :
  forall (s : App) (now : Z) (value format : string),
    manualCode (dom s) = Some value ->
    manualFormat (dom s) = Some format ->
    trim value <> "" ->
    let code := trim value in
    let created := Scan.make code format (toISOString P now) None in
    let after := submitManualCode now s in
    fst after = Submitted code format
    /\ snd after =
       (let s1 := showResults created (addToHistory created s) in
        let s2 := if autoSearch (settings s)
                  then searchProduct code format s1 else s1 in
        set_dom (set_manual (Some "") (Some "UPC-A") (dom s2)) s2)
    /\ scanHistory (addToHistory created s)
       = created :: firstn 49 (scanHistory s)
    /\ scanHistory (snd after)
       = Scan.with_product (productOnReturn code s) created
           :: firstn 49 (scanHistory s)
    /\ (isValidUPCorEAN code = true \/ autoSearch (settings s) = false ->
        scanHistory (snd after) = created :: firstn 49 (scanHistory s))
    /\ List.length (scanHistory (snd after))
       = Nat.min 50 (S (List.length (scanHistory s))).
Proof.
  intros s now value format C F NB code created after.
  assert (NE : nonEmpty code = true).
  { destruct (nonEmpty code) eqn:E; [reflexivity|].
    apply nonEmpty_false in E. contradiction. }
  assert (A : after = (Submitted code format,
                       set_dom (set_manual (Some "") (Some "UPC-A")
                                  (dom (processScan code format now s)))
                         (processScan code format now s))).
  { subst after. unfold submitManualCode. rewrite C, F.
    fold code. rewrite NE. reflexivity. }
  assert (H : scanHistory (snd after)
              = Scan.with_product (productOnReturn code s) created
                  :: firstn 49 (scanHistory s)).
  { rewrite A. cbn [snd scanHistory set_dom].
    apply processScan_scanHistory. }
  split; [rewrite A; reflexivity|].
  split.
  { rewrite A. cbn [snd]. unfold processScan.
    rewrite showResults_settings.
    change (newScanData code format now) with created.
    destruct (scanSide_fields _ _ (scanSide_addToHistory created s))
      as (_ & _ & -> & _).
    reflexivity. }
  split; [apply addToHistory_head|].
  split; [exact H|].
  split.
  - intros V. rewrite H. unfold productOnReturn.
    destruct V as [-> | ->]; cbn [negb andb]; rewrite ?andb_false_r;
      reflexivity.
  - rewrite H. cbn [List.length]. rewrite length_firstn. lia.
Qed.

(** ** Settings *)

(** C10. Whatever the check boxes, the settings in force and the stored
    ones, the settings [updateSettings] puts in force have
    [minDetections = 2] and [detectionTimeout = 2000], and these are the
    settings it stores. *)
Theorem updateSettings_fixes_thresholds :
  forall s : App,
    minDetections (settings (updateSettings s)) = 2
    /\ detectionTimeout (settings (updateSettings s)) = 2000
    /\ (storageWorks (host s) = true ->
        storedSettings (host (updateSettings s))
        = Some (settings (updateSettings s))).
Proof.
  intros s. unfold updateSettings, saveSettings. cbn.
  destruct (storageWorks (host s)); cbn; repeat split; congruence.
Qed.

(** * Further properties *)

(** ** The confirmation engine, continued *)

Lemma filter_stale (cutoff : Z) (window : list Detection.t) :
  Forall (fun d => Detection.timestamp d <= cutoff) window ->
  filter (fun d => cutoff <? Detection.timestamp d) window = [].
Proof.
  induction 1 as [|d window Hd _ IH]; [reflexivity|].
  cbn. destruct (Z.ltb_spec cutoff (Detection.timestamp d)); [lia|exact IH].
Qed.

Lemma pending_when_below (result : RawResult) (tPush tCutoff tScan : Z)
    (s : App) :
  requireMultipleDetections (settings s) = true ->
  Z.of_nat (countCode (getText result) (windowOf result tPush tCutoff s))
  < minDetections (settings s) ->
  handleDetection result tPush tCutoff tScan s
  = (Pending, pruned result tPush tCutoff s).
Proof.
  intros R B. rewrite handleDetection_eq, R. cbn [negb orb].
  destruct (Z.leb_spec (minDetections (settings s))
              (Z.of_nat (countCode (getText result)
                           (windowOf result tPush tCutoff s))));
    [lia|reflexivity].
Qed.

(** X1. Entries observed [detectionTimeout] or more before the cutoff
    reading do not count: when the window holds only such entries and at
    least two detections are required, the observation stays pending, and
    the window it leaves holds that observation alone (or nothing, if the
    timeout is not positive). *)
Theorem stale_entries_do_not_count :
  forall (s : App) (result : RawResult) (tPush tCutoff tScan : Z),
    Forall (fun d => Detection.timestamp d
                     <= tCutoff - detectionTimeout (settings s))
           (detectionHistory s) ->
    requireMultipleDetections (settings s) = true ->
    2 <= minDetections (settings s) ->
    let after := handleDetection result tPush tCutoff tScan s in
    fst after = Pending
    /\ detectionHistory (snd after)
       = if tCutoff - detectionTimeout (settings s) <? tPush
         then [pushed result tPush] else [].
Proof.
  intros s result tPush tCutoff tScan Old R M after.
  assert (W : windowOf result tPush tCutoff s
              = if tCutoff - detectionTimeout (settings s) <? tPush
                then [pushed result tPush] else []).
  { unfold windowOf. rewrite filter_app, (filter_stale _ _ Old). reflexivity. }
  assert (C : (countCode (getText result) (windowOf result tPush tCutoff s)
               <= 1)%nat).
  { rewrite W. destruct (_ <? _).
    - apply countCode_single.
    - unfold countCode. cbn. lia. }
  subst after. rewrite pending_when_below by (auto; lia).
  split; [reflexivity|]. exact W.
Qed.

(** X2. The count is over the whole window, not over a run of equal
    reads: from an empty window with two detections required, a code,
    then another code, then the first code again, all within the
    timeout, give Pending, Pending and a confirmation of the first
    code. *)
Theorem interleaved_code_does_not_reset :
  forall (s : App) (r1 r2 r3 : RawResult)
         (t1 t1c t1s t2 t2c t2s t3 t3c t3s : Z),
    detectionHistory s = [] ->
    requireMultipleDetections (settings s) = true ->
    minDetections (settings s) = 2 ->
    getText r3 = getText r1 ->
    getText r2 <> getText r1 ->
    t1 <= t1c -> t1c <= t2 -> t2 <= t2c -> t2c <= t3 -> t3 <= t3c ->
    t3c - t1 < detectionTimeout (settings s) ->
    let first := handleDetection r1 t1 t1c t1s s in
    let second := handleDetection r2 t2 t2c t2s (snd first) in
    let third := handleDetection r3 t3 t3c t3s (snd second) in
    fst first = Pending /\ fst second = Pending
    /\ fst third = Confirmed (getText r1) (formatOf r3)
    /\ detectionHistory (snd third)
       = [pushed r1 t1; pushed r2 t2; pushed r3 t3].
Proof.
  intros s r1 r2 r3 t1 t1c t1s t2 t2c t2s t3 t3c t3s
         E R M X31 X21 L1 L2 L3 L4 L5 T first second third.
  assert (N21 : String.eqb (getText r1) (getText r2) = false).
  { apply String.eqb_neq. congruence. }
  assert (N12 : String.eqb (getText r2) (getText r1) = false).
  { apply String.eqb_neq. congruence. }
  assert (W1 : windowOf r1 t1 t1c s = [pushed r1 t1]).
  { unfold windowOf. rewrite E. cbn.
    destruct (Z.ltb_spec (t1c - detectionTimeout (settings s)) t1);
      [reflexivity|lia]. }
  assert (F : first = (Pending, pruned r1 t1 t1c s)).
  { subst first. apply pending_when_below; [exact R|].
    rewrite W1, M. pose proof (countCode_single (getText r1) (pushed r1 t1)).
    lia. }
  assert (W2 : windowOf r2 t2 t2c (snd first) = [pushed r1 t1; pushed r2 t2]).
  { rewrite F. unfold windowOf. cbn [snd pruned settings detectionHistory
                                      set_detectionHistory set_lastDetectedCode].
    rewrite W1. cbn.
    destruct (Z.ltb_spec (t2c - detectionTimeout (settings s)) t1); [|lia].
    destruct (Z.ltb_spec (t2c - detectionTimeout (settings s)) t2); [|lia].
    reflexivity. }
  assert (S1 : settings (snd first) = settings s) by (rewrite F; reflexivity).
  assert (G : second = (Pending, pruned r2 t2 t2c (snd first))).
  { subst second. apply pending_when_below; [rewrite S1; exact R|].
    rewrite W2, S1, M. unfold countCode. cbn. rewrite N21, String.eqb_refl.
    cbn. lia. }
  assert (S2 : settings (snd second) = settings s) by (rewrite G; exact S1).
  assert (W3 : windowOf r3 t3 t3c (snd second)
               = [pushed r1 t1; pushed r2 t2; pushed r3 t3]).
  { rewrite G. unfold windowOf.
    cbn [snd pruned settings detectionHistory
         set_detectionHistory set_lastDetectedCode].
    rewrite W2, S1. cbn.
    destruct (Z.ltb_spec (t3c - detectionTimeout (settings s)) t1); [|lia].
    destruct (Z.ltb_spec (t3c - detectionTimeout (settings s)) t2); [|lia].
    destruct (Z.ltb_spec (t3c - detectionTimeout (settings s)) t3); [|lia].
    reflexivity. }
  split; [rewrite F; reflexivity|].
  split; [rewrite G; reflexivity|].
  subst third. rewrite handleDetection_window, handleDetection_outcome.
  rewrite W3, S2, R, M, X31. split; [|reflexivity].
  unfold countCode. cbn. rewrite N12, String.eqb_refl, X31, String.eqb_refl.
  reflexivity.
Qed.


(** ** What the scan loop leaves alone *)

Lemma dataSide_stopScanning (s : App) :
  dataSide (stopScanning s) = dataSide s.
Proof. unfold stopScanning. destruct (isScanning s); reflexivity. Qed.

Lemma dataSide_nextFrame (s : App) : dataSide (nextFrame s) = dataSide s.
Proof.
  unfold nextFrame, continueScanning. cbn. destruct (isScanning s); reflexivity.
Qed.

Lemma dataSide_scanLoop (frame : Frame) (s : App) :
  dataSide (scanLoop frame s) = dataSide s.
Proof.
  unfold scanLoop.
  destruct (isScanning s) eqn:E; cbn [negb]; [|reflexivity].
  destruct (scanner (dom s)); [|reflexivity].
  destruct (scannerCanvas (dom s)); [|reflexivity].
  destruct frame.
  - unfold continueScanning. rewrite E. reflexivity.
  - apply dataSide_nextFrame.
  - destruct (codeReader s); [reflexivity|apply dataSide_nextFrame].
Qed.

Lemma dataSide_startScanning (now : Z) (frame : Frame) (s : App) :
  dataSide (startScanning now frame s) = dataSide s.
Proof.
  unfold startScanning. destruct (isScanning s); [reflexivity|].
  destruct (scanner _) as [[|]|].
  - destruct (debugMode _).
    + change (dataSide (set_debugInterval true ?x)) with (dataSide x).
      rewrite dataSide_scanLoop. reflexivity.
    + rewrite dataSide_scanLoop. reflexivity.
  - rewrite dataSide_stopScanning. reflexivity.
  - rewrite dataSide_stopScanning. reflexivity.
Qed.

Lemma dataSide_fields (a b : App) :
  dataSide a = dataSide b ->
  scanHistory a = scanHistory b /\ settings a = settings b
  /\ storageWorks (host a) = storageWorks (host b)
  /\ storedHistory (host a) = storedHistory (host b)
  /\ storedSettings (host a) = storedSettings (host b)
  /\ pendingLookups (host a) = pendingLookups (host b).
Proof. unfold dataSide. intros H. injection H. auto 10. Qed.

(** ** How an event changes the history *)

Lemma searchOpenFoodFacts_found (code : string) (resp : FetchResult)
    (pd : ProductData) :
  searchOpenFoodFacts code resp = Some pd ->
  exists product : OffProduct,
    resp = FetchJson 1 (Some product)
    /\ name pd = orElse (product_name product)
                   (orElse (product_name_en product) "Unknown Product")
    /\ brand pd = orElse (brands product) "Unknown Brand"
    /\ description pd
       = truncateText (orElse (ingredients_text_en product)
                         (orElse (ingredients_text product) ""))
    /\ source pd = "Open Food Facts"
    /\ sourceUrl pd = "https://world.openfoodfacts.org/product/" ++ code
    /\ searchLinks pd = None.
Proof.
  destruct resp as [|status [product|]]; cbn;
    try destruct status as [|[q|q|]|q]; try discriminate.
  intros H. injection H as <-. exists product. cbn. auto 10.
Qed.

Lemma nonEmpty_orElse (a b : string) :
  nonEmpty (orElse a b) = nonEmpty a || nonEmpty b.
Proof. unfold orElse. destruct (nonEmpty a) eqn:E; [exact E|reflexivity]. Qed.

Lemma lookedUp_named (code : string) (resp : FetchResult) :
  nonEmpty (name (lookedUp code resp)) = true.
Proof.
  unfold lookedUp. destruct (searchOpenFoodFacts code resp) as [pd|] eqn:E.
  - apply searchOpenFoodFacts_found in E.
    destruct E as (product & _ & -> & _).
    rewrite !nonEmpty_orElse. cbn. rewrite !orb_true_r. reflexivity.
  - reflexivity.
Qed.

Lemma displayProductInfo_step (pd : ProductData) (code : string) (s : App) :
  nonEmpty (name pd) = true ->
  HistoryStep (scanHistory s)
    (scanHistory (displayProductInfo (Some pd) code s)).
Proof.
  intros N. rewrite displayProductInfo_scanHistory.
  destruct (productInfo (dom s)); [|constructor].
  destruct (scanHistory s) as [|head older] eqn:H; [constructor|].
  apply HeadNamed; [reflexivity|exact N].
Qed.

Lemma processScan_step (code format : string) (now : Z) (s : App) :
  nonEmpty code = true ->
  HistoryStep (scanHistory s) (scanHistory (processScan code format now s)).
Proof.
  intros N. rewrite processScan_scanHistory.
  apply (RecordAdded (scanHistory s) code format (toISOString P now)
           (productOnReturn code s) N).
  unfold productOnReturn.
  destruct (_ && _); [destruct (productInfo _)|]; auto.
Qed.

Lemma handleDetection_step (result : RawResult) (tPush tCutoff tScan : Z)
    (s : App) :
  nonEmpty (getText result) = true ->
  HistoryStep (scanHistory s)
    (scanHistory (snd (handleDetection result tPush tCutoff tScan s))).
Proof.
  intros N. rewrite handleDetection_eq.
  destruct (negb _ || _); cbn [snd]; [|constructor].
  unfold confirmDetection.
  destruct (stopScanning_fields (pruned result tPush tCutoff s))
    as (_ & _ & _ & Sh & _).
  cbn zeta in Sh.
  change (scanHistory s) with (scanHistory (pruned result tPush tCutoff s)).
  rewrite <- Sh. apply processScan_step. exact N.
Qed.

Lemma submitManualCode_step (now : Z) (s : App) :
  HistoryStep (scanHistory s) (scanHistory (snd (submitManualCode now s))).
Proof.
  unfold submitManualCode.
  destruct (manualCode _) as [value|]; [|constructor].
  destruct (manualFormat _) as [format|]; [|constructor].
  destruct (nonEmpty (trim value)) eqn:N; [|constructor].
  cbn [snd]. apply (processScan_step (trim value) format now s N).
Qed.

Lemma showHistoryDetails_step (index : nat) (s : App) :
  HistoryStep (scanHistory s) (scanHistory (showHistoryDetails index s)).
Proof.
  unfold showHistoryDetails.
  destruct (nth_error _ _) as [scan|]; [|constructor].
  destruct (Scan.product scan) as [product|].
  - destruct (nonEmpty product) eqn:N.
    + rewrite <- (showResults_scanHistory scan s) at 1.
      apply displayProductInfo_step. exact N.
    + rewrite showResults_scanHistory. constructor.
  - rewrite showResults_scanHistory. constructor.
Qed.

(** X4. One event changes the history in one of four ways only: not at
    all; by emptying it ([clearHistory]); by giving its head a product
    name that is not empty, all else unchanged; or by putting one record
    in front, with a code that is not empty and a product that is absent
    or the fallback name, followed by the first 49 of the old records. *)
Theorem dispatch_history_step :
  forall (e : Event) (s : App),
    HistoryStep (scanHistory s) (scanHistory (dispatch e s)).
Proof.
  intros e s.
  destruct e as [frame|decoded tPush tCutoff tScan|code resp|now frame|
                 |value format|now| |confirmed|index| |];
    cbn [dispatch].
  - destruct (pendingFrames (host s)); [constructor|].
    destruct (dataSide_fields _ _
                (dataSide_scanLoop frame
                   (set_host (set_pendingFrames n (host s)) s))) as (-> & _).
    constructor.
  - destruct (pendingDecodes (host s)); [constructor|].
    set (x := set_host _ s).
    change (scanHistory s) with (scanHistory x). clearbody x.
    unfold scanLoop_resume.
    assert (K : HistoryStep (scanHistory x) (scanHistory (nextFrame x))).
    { destruct (dataSide_fields _ _ (dataSide_nextFrame x)) as (-> & _).
      constructor. }
    destruct decoded as [result|]; [|exact K].
    destruct (nonEmpty (getText result)) eqn:N; [|exact K].
    apply handleDetection_step. exact N.
  - destruct (takeLookup _ _); [|constructor].
    unfold searchProduct_resume. fold (lookedUp code resp).
    apply (displayProductInfo_step (lookedUp code resp) code
             (set_host (set_pendingLookups l (host s)) s)).
    apply lookedUp_named.
  - destruct (dataSide_fields _ _ (dataSide_startScanning now frame s))
      as (-> & _).
    constructor.
  - destruct (dataSide_fields _ _ (dataSide_stopScanning s)) as (-> & _).
    constructor.
  - constructor.
  - apply submitManualCode_step.
  - unfold updateSettings, saveSettings. cbn.
    destruct (storageWorks (host s)); constructor.
  - unfold clearHistory. destruct confirmed; [|constructor].
    rewrite saveHistory_scanHistory. constructor.
  - apply showHistoryDetails_step.
  - constructor.
  - constructor.
Qed.

Lemma run_snoc (events : list Event) (e : Event) (s : App) :
  run (events ++ [e]) s = dispatch e (run events s).
Proof. unfold run. rewrite fold_left_app. reflexivity. Qed.

Lemma In_firstn {A : Type} (n : nat) (l : list A) (x : A) :
  In x (firstn n l) -> In x l.
Proof.
  intros H. rewrite <- (firstn_skipn n l). apply in_or_app. left. exact H.
Qed.

(** X5. Whatever events are run, the history never grows beyond 50
    records, or beyond the length it had if that was more. *)
Theorem run_history_bounded :
  forall (events : list Event) (s : App),
    (List.length (scanHistory (run events s))
     <= Nat.max 50 (List.length (scanHistory s)))%nat.
Proof.
  intros events s. induction events as [|e events IH] using rev_ind.
  - change (run [] s) with s. lia.
  - rewrite run_snoc.
    destruct (dispatch_history_step e (run events s))
      as [| |head older p H N|code format iso p N Hp].
    + exact IH.
    + cbn [List.length]. lia.
    + rewrite H in IH. exact IH.
    + cbn [List.length]. rewrite length_firstn. lia.
Qed.

(** X6. Whatever events are run, if every record of the history had a
    code that is not empty and a product that is absent or not empty,
    that is still so afterwards. *)
Theorem run_history_well_formed :
  forall (events : list Event) (s : App),
    Forall (fun r => nonEmpty (Scan.code r) = true
                     /\ properProduct r = true) (scanHistory s) ->
    Forall (fun r => nonEmpty (Scan.code r) = true
                     /\ properProduct r = true)
           (scanHistory (run events s)).
Proof.
  intros events s W. induction events as [|e events IH] using rev_ind.
  - exact W.
  - rewrite run_snoc.
    destruct (dispatch_history_step e (run events s))
      as [| |head older p H N|code format iso p N Hp].
    + exact IH.
    + constructor.
    + rewrite H in IH. inversion IH as [|? ? [Hc _] Ho]; subst.
      constructor; [|exact Ho].
      split; [exact Hc|exact N].
    + constructor.
      * split; [exact N|].
        destruct Hp as [-> | ->]; reflexivity.
      * apply Forall_forall. intros r Hr.
        apply (proj1 (Forall_forall _ _) IH).
        apply (In_firstn 49). exact Hr.
Qed.

(** ** How an event changes the lookups under way *)

Lemma pendingLookups_saveHistory (s : App) :
  pendingLookups (host (saveHistory s)) = pendingLookups (host s).
Proof. unfold saveHistory. destruct (storageWorks (host s)); reflexivity. Qed.

Lemma pendingLookups_addToHistory (r : Scan.t) (s : App) :
  pendingLookups (host (addToHistory r s)) = pendingLookups (host s).
Proof.
  unfold addToHistory. rewrite pendingLookups_saveHistory.
  destruct (_ <? _)%nat; reflexivity.
Qed.

Lemma pendingLookups_showResults (r : Scan.t) (s : App) :
  pendingLookups (host (showResults r s)) = pendingLookups (host s).
Proof. unfold showResults. destruct (productInfo (dom s)); reflexivity. Qed.

Lemma pendingLookups_displayProductInfo (pd : option ProductData)
    (code : string) (s : App) :
  pendingLookups (host (displayProductInfo pd code s))
  = pendingLookups (host s).
Proof.
  unfold displayProductInfo, displayProductError.
  destruct (productInfo (dom s)); [|reflexivity].
  destruct pd; [|reflexivity].
  cbv zeta. change (scanHistory (set_dom ?d s)) with (scanHistory s).
  destruct (scanHistory s); [reflexivity|].
  rewrite pendingLookups_saveHistory. reflexivity.
Qed.

(** [processScan] issues a lookup exactly when automatic search is on and
    the code is 8 to 14 digits. *)
Lemma pendingLookups_processScan (code format : string) (now : Z) (s : App) :
  pendingLookups (host (processScan code format now s))
  = if autoSearch (settings s) && isValidUPCorEAN code
    then (pendingLookups (host s) ++ [code])%list
    else pendingLookups (host s).
Proof.
  unfold processScan. rewrite showResults_settings.
  destruct (scanSide_fields _ _ (scanSide_addToHistory
                                   (newScanData code format now) s))
    as (_ & _ & -> & _).
  destruct (autoSearch (settings s)); cbn [andb].
  - unfold searchProduct. destruct (isValidUPCorEAN code).
    + cbn [host set_host pendingLookups set_pendingLookups].
      rewrite pendingLookups_showResults, pendingLookups_addToHistory.
      reflexivity.
    + rewrite pendingLookups_displayProductInfo, pendingLookups_showResults.
      apply pendingLookups_addToHistory.
  - rewrite pendingLookups_showResults. apply pendingLookups_addToHistory.
Qed.

Lemma processScan_lookup_step (code format : string) (now : Z) (s : App) :
  LookupStep (pendingLookups (host s))
    (pendingLookups (host (processScan code format now s))).
Proof.
  rewrite pendingLookups_processScan.
  destruct (autoSearch (settings s)); cbn [andb]; [|constructor].
  destruct (isValidUPCorEAN code) eqn:V; [|constructor].
  apply LookupIssued. exact V.
Qed.

Lemma dispatch_lookup_step (e : Event) (s : App) :
  LookupStep (pendingLookups (host s)) (pendingLookups (host (dispatch e s))).
Proof.
  destruct e as [frame|decoded tPush tCutoff tScan|code resp|now frame|
                 |value format|now| |confirmed|index| |];
    cbn [dispatch].
  - destruct (pendingFrames (host s)); [constructor|].
    destruct (dataSide_fields _ _
                (dataSide_scanLoop frame
                   (set_host (set_pendingFrames n (host s)) s)))
      as (_ & _ & _ & _ & _ & ->).
    constructor.
  - destruct (pendingDecodes (host s)); [constructor|].
    set (x := set_host _ s).
    change (pendingLookups (host s)) with (pendingLookups (host x)).
    clearbody x. unfold scanLoop_resume.
    assert (K : LookupStep (pendingLookups (host x))
                  (pendingLookups (host (nextFrame x)))).
    { destruct (dataSide_fields _ _ (dataSide_nextFrame x))
        as (_ & _ & _ & _ & _ & ->).
      constructor. }
    destruct decoded as [result|]; [|exact K].
    destruct (nonEmpty (getText result)); [|exact K].
    rewrite handleDetection_eq.
    destruct (negb _ || _); cbn [snd]; [|constructor].
    unfold confirmDetection.
    destruct (dataSide_fields _ _
                (dataSide_stopScanning (pruned result tPush tCutoff x)))
      as (_ & _ & _ & _ & _ & L).
    change (pendingLookups (host x))
      with (pendingLookups (host (pruned result tPush tCutoff x))).
    rewrite <- L. apply processScan_lookup_step.
  - destruct (takeLookup code (pendingLookups (host s))) as [rest|] eqn:T;
      [|constructor].
    unfold searchProduct_resume.
    rewrite pendingLookups_displayProductInfo.
    apply (LookupSettled _ code rest T).
  - destruct (dataSide_fields _ _ (dataSide_startScanning now frame s))
      as (_ & _ & _ & _ & _ & ->).
    constructor.
  - destruct (dataSide_fields _ _ (dataSide_stopScanning s))
      as (_ & _ & _ & _ & _ & ->).
    constructor.
  - constructor.
  - unfold submitManualCode.
    destruct (manualCode _) as [value|]; [|constructor].
    destruct (manualFormat _) as [format|]; [|constructor].
    destruct (nonEmpty (trim value)); [|constructor].
    cbn [snd]. apply (processScan_lookup_step (trim value) format now s).
  - unfold updateSettings, saveSettings. cbn.
    destruct (storageWorks (host s)); constructor.
  - unfold clearHistory. destruct confirmed; [|constructor].
    rewrite pendingLookups_saveHistory. constructor.
  - unfold showHistoryDetails.
    destruct (nth_error _ _) as [scan|]; [|constructor].
    destruct (Scan.product scan) as [product|];
      [destruct (nonEmpty product)|];
      rewrite ?pendingLookups_displayProductInfo, pendingLookups_showResults;
      constructor.
  - constructor.
  - constructor.
Qed.

Lemma takeLookup_Forall (Q : string -> Prop) (code : string)
    (pending rest : list string) :
  takeLookup code pending = Some rest -> Forall Q pending -> Forall Q rest.
Proof.
  revert rest. induction pending as [|c pending IH]; intros rest T F.
  - discriminate T.
  - cbn in T. inversion F as [|? ? Hc Hp]; subst.
    destruct (String.eqb c code).
    + injection T as <-. exact Hp.
    + destruct (takeLookup code pending) as [r|]; [|discriminate T].
      injection T as <-. constructor; [exact Hc|]. apply IH; auto.
Qed.

(** X7. Lookups are issued for codes of 8 to 14 digits only: whatever
    events are run, if every lookup under way was for such a code, so is
    every lookup under way afterwards; and one event issues at most one
    lookup. *)
Theorem run_lookups_only_for_digit_codes :
  forall (events : list Event) (s : App),
    Forall (fun c => isValidUPCorEAN c = true) (pendingLookups (host s)) ->
    Forall (fun c => isValidUPCorEAN c = true)
           (pendingLookups (host (run events s)))
    /\ (List.length (pendingLookups (host (run events s)))
        <= List.length (pendingLookups (host s)) + List.length events)%nat.
Proof.
  intros events s V. induction events as [|e events IH] using rev_ind.
  - split; [exact V|cbn; lia].
  - destruct IH as [IV IL]. rewrite run_snoc, length_app. cbn [List.length].
    destruct (dispatch_lookup_step e (run events s))
      as [|code Hc|code rest T].
    + split; [exact IV|lia].
    + split.
      * apply Forall_app. split; [exact IV|]. constructor; [exact Hc|constructor].
      * rewrite length_app. cbn. lia.
    + split; [exact (takeLookup_Forall _ _ _ _ T IV)|].
      assert (L : (List.length rest
                   <= List.length (pendingLookups (host (run events s))))%nat).
      { clear - T. revert rest T.
        induction (pendingLookups (host (run events s))) as [|c l IHl];
          intros rest T; [discriminate T|].
        cbn in T. destruct (String.eqb c code).
        - injection T as <-. cbn. lia.
        - destruct (takeLookup code l) as [r|]; [|discriminate T].
          injection T as <-. cbn. specialize (IHl r eq_refl). lia. }
      lia.
Qed.

(** ** Storage follows the application *)

Lemma inSync_by_dataSide (a b : App) :
  dataSide a = dataSide b -> inSync b -> inSync a.
Proof.
  intros D. apply dataSide_fields in D.
  destruct D as (H1 & H2 & H3 & H4 & H5 & _).
  unfold inSync, loadHistory, loadSettings. rewrite H1, H2, H3, H4, H5. tauto.
Qed.

Lemma inSync_saveHistory (h : list Scan.t) (s : App) :
  inSync s -> inSync (saveHistory (set_scanHistory h s)).
Proof.
  intros (W & _ & S). unfold saveHistory. cbn [host set_scanHistory].
  rewrite W. unfold inSync. cbn. auto.
Qed.

Lemma inSync_addToHistory (r : Scan.t) (s : App) :
  inSync s -> inSync (addToHistory r s).
Proof.
  intros H. unfold addToHistory.
  destruct (_ <? _)%nat; apply inSync_saveHistory; exact H.
Qed.

Lemma inSync_showResults (r : Scan.t) (s : App) :
  inSync s -> inSync (showResults r s).
Proof.
  intros H. unfold showResults. destruct (productInfo (dom s)); exact H.
Qed.

Lemma inSync_displayProductInfo (pd : option ProductData) (code : string)
    (s : App) :
  inSync s -> inSync (displayProductInfo pd code s).
Proof.
  intros H. unfold displayProductInfo, displayProductError.
  destruct (productInfo (dom s)); [|exact H].
  destruct pd; [|exact H].
  cbv zeta. change (scanHistory (set_dom ?d s)) with (scanHistory s).
  destruct (scanHistory s); [exact H|].
  apply (inSync_saveHistory _ (set_dom _ s)). exact H.
Qed.

Lemma inSync_processScan (code format : string) (now : Z) (s : App) :
  inSync s -> inSync (processScan code format now s).
Proof.
  intros H. unfold processScan.
  pose proof (inSync_showResults (newScanData code format now) _
                (inSync_addToHistory (newScanData code format now) s H)) as K.
  destruct (autoSearch _); [|exact K].
  unfold searchProduct. destruct (isValidUPCorEAN code).
  - exact K.
  - apply inSync_displayProductInfo. exact K.
Qed.

Lemma inSync_handleDetection (result : RawResult) (tPush tCutoff tScan : Z)
    (s : App) :
  inSync s -> inSync (snd (handleDetection result tPush tCutoff tScan s)).
Proof.
  intros H. rewrite handleDetection_eq.
  destruct (negb _ || _); cbn [snd]; [|exact H].
  unfold confirmDetection. apply inSync_processScan.
  apply (inSync_by_dataSide _ _ (dataSide_stopScanning _)). exact H.
Qed.

Lemma inSync_dispatch (e : Event) (s : App) :
  inSync s -> inSync (dispatch e s).
Proof.
  intros H.
  destruct e as [frame|decoded tPush tCutoff tScan|code resp|now frame|
                 |value format|now| |confirmed|index| |];
    cbn [dispatch].
  - destruct (pendingFrames (host s)); [exact H|].
    apply (inSync_by_dataSide _ _ (dataSide_scanLoop _ _)). exact H.
  - destruct (pendingDecodes (host s)); [exact H|].
    unfold scanLoop_resume.
    destruct decoded as [result|];
      [destruct (nonEmpty (getText result))|].
    + apply inSync_handleDetection. exact H.
    + apply (inSync_by_dataSide _ _ (dataSide_nextFrame _)). exact H.
    + apply (inSync_by_dataSide _ _ (dataSide_nextFrame _)). exact H.
  - destruct (takeLookup _ _); [|exact H].
    unfold searchProduct_resume. apply inSync_displayProductInfo. exact H.
  - apply (inSync_by_dataSide _ _ (dataSide_startScanning _ _ _)). exact H.
  - apply (inSync_by_dataSide _ _ (dataSide_stopScanning _)). exact H.
  - exact H.
  - unfold submitManualCode.
    destruct (manualCode _) as [value|]; [|exact H].
    destruct (manualFormat _) as [format|]; [|exact H].
    destruct (nonEmpty (trim value)); [|exact H].
    cbn [snd]. exact (inSync_processScan (trim value) format now s H).
  - destruct H as (W & Hh & _).
    unfold updateSettings, saveSettings. cbn [host set_settings].
    rewrite W. unfold inSync. cbn. auto.
  - unfold clearHistory. destruct confirmed; [|exact H].
    apply inSync_saveHistory. exact H.
  - unfold showHistoryDetails.
    destruct (nth_error _ _) as [scan|]; [|exact H].
    destruct (Scan.product scan) as [product|];
      [destruct (nonEmpty product)|];
      try apply inSync_displayProductInfo;
      apply inSync_showResults; exact H.
  - exact H.
  - exact H.
Qed.

Lemma inSync_run (events : list Event) (s : App) :
  inSync s -> inSync (run events s).
Proof.
  unfold run. revert s.
  induction events as [|e events IH]; intros s H; [exact H|].
  cbn [fold_left]. apply IH, inSync_dispatch, H.
Qed.

(** X8. With a storage that accepts writes, what is in storage follows
    the application through every event: an application constructed over
    any stored state and driven by any events can be loaded again, in any
    page, and the new application has the same history and the same
    settings, the enabled formats among them. *)
Theorem reload_reproduces_history_and_settings :
  forall (page page' : Dom) (h : Host) (events : list Event),
    storageWorks h = true ->
    let s := run events (construct page h) in
    scanHistory (reload page' s) = scanHistory s
    /\ settings (reload page' s) = settings s
    /\ formats (settings (reload page' s)) = formats (settings s).
Proof.
  intros page page' h events W s.
  assert (I : inSync s).
  { subst s. apply inSync_run. unfold inSync, construct. cbn. auto. }
  destruct I as (_ & Hh & Hs).
  assert (E : settings (reload page' s) = settings s) by exact Hs.
  split; [exact Hh|]. split; [exact E|]. rewrite E. reflexivity.
Qed.

(** ** Loops under way *)

Lemma nextFrame_loops (s : App) :
  (loopsInFlight (nextFrame s) <= S (loopsInFlight s))%nat.
Proof.
  unfold loopsInFlight, nextFrame, continueScanning. cbn.
  destruct (isScanning s); cbn; lia.
Qed.

Lemma scanLoop_loops (frame : Frame) (s : App) :
  (loopsInFlight (scanLoop frame s) <= S (loopsInFlight s))%nat.
Proof.
  unfold scanLoop.
  destruct (isScanning s) eqn:E; cbn [negb]; [|lia].
  destruct (scanner (dom s)); [|lia].
  destruct (scannerCanvas (dom s)); [|lia].
  destruct frame.
  - unfold loopsInFlight, continueScanning. rewrite E. cbn. lia.
  - apply nextFrame_loops.
  - destruct (codeReader s); [|apply nextFrame_loops].
    unfold loopsInFlight. cbn. lia.
Qed.

Lemma scanSide_loops (a b : App) :
  scanSide a = scanSide b -> loopsInFlight a = loopsInFlight b.
Proof.
  intros H. apply scanSide_fields in H.
  destruct H as (_ & _ & _ & H1 & H2 & _).
  unfold loopsInFlight. rewrite H1, H2. reflexivity.
Qed.

Lemma handleDetection_loops (result : RawResult) (tPush tCutoff tScan : Z)
    (s : App) :
  loopsInFlight (snd (handleDetection result tPush tCutoff tScan s))
  = loopsInFlight s.
Proof.
  rewrite handleDetection_eq.
  destruct (negb _ || _); cbn [snd]; [|reflexivity].
  destruct (confirmDetection_fields (getText result) (formatOf result) tScan
              (pruned result tPush tCutoff s)) as (_ & _ & _ & H1 & H2 & _).
  unfold loopsInFlight. cbn zeta in H1, H2. rewrite H1, H2. reflexivity.
Qed.

Lemma dispatch_loops (e : Event) (s : App) :
  (loopsInFlight (dispatch e s)
   <= loopsInFlight s
      + (if isStart e && negb (isScanning s) then 1 else 0))%nat.
Proof.
  destruct e as [frame|decoded tPush tCutoff tScan|code resp|now frame|
                 |value format|now| |confirmed|index| |];
    cbn [dispatch isStart andb]; rewrite ?Nat.add_0_r.
  - destruct (pendingFrames (host s)) as [|n] eqn:F; [lia|].
    pose proof (scanLoop_loops frame
                  (set_host (set_pendingFrames n (host s)) s)) as K.
    unfold loopsInFlight in *. cbn in K. rewrite F. lia.
  - destruct (pendingDecodes (host s)) as [|n] eqn:F; [lia|].
    set (x := set_host _ s).
    assert (X : S (loopsInFlight x) = loopsInFlight s).
    { unfold loopsInFlight, x. cbn. rewrite F. lia. }
    clearbody x. unfold scanLoop_resume.
    pose proof (nextFrame_loops x) as K.
    destruct decoded as [result|]; [|lia].
    destruct (nonEmpty _); [|lia].
    rewrite handleDetection_loops. lia.
  - destruct (takeLookup _ _); [|lia].
    rewrite (scanSide_loops _ _ (scanSide_searchProduct_resume _ _ _)).
    unfold loopsInFlight. cbn. lia.
  - unfold startScanning. destruct (isScanning s); cbn [negb]; [lia|].
    destruct (scanner _) as [[|]|].
    + match goal with
      | |- context [scanLoop frame ?x] =>
          pose proof (scanLoop_loops frame x) as K
      end.
      destruct (debugMode _); unfold loopsInFlight in *; cbn in *; lia.
    + unfold stopScanning, loopsInFlight. cbn. lia.
    + unfold stopScanning, loopsInFlight. cbn. lia.
  - unfold stopScanning, loopsInFlight. destruct (isScanning s); cbn; lia.
  - unfold loopsInFlight. cbn. lia.
  - rewrite (scanSide_loops _ _ (scanSide_submitManualCode now s)). lia.
  - unfold updateSettings, saveSettings, loopsInFlight. cbn.
    destruct (storageWorks (host s)); cbn; lia.
  - rewrite (scanSide_loops _ _ (scanSide_clearHistory confirmed s)). lia.
  - rewrite (scanSide_loops _ _ (scanSide_showHistoryDetails index s)). lia.
  - unfold loopsInFlight. cbn. lia.
  - unfold loopsInFlight. cbn. lia.
Qed.

(** X9. No callback and no user action multiplies the scan loop: whatever
    events are run, the number of loop iterations under way (scheduled,
    or suspended in the decoder) is at most what it was plus the number
    of [startScanning] events among them; a [startScanning] that finds
    the scan running adds none. *)
Theorem run_loops_bounded_by_starts :
  forall (events : list Event) (s : App),
    (loopsInFlight (run events s)
     <= loopsInFlight s + List.length (filter isStart events))%nat
    /\ (forall (now : Z) (frame : Frame),
           isScanning s = true ->
           loopsInFlight (dispatch (StartScanning now frame) s)
           = loopsInFlight s).
Proof.
  intros events s. split.
  - induction events as [|e events IH] using rev_ind.
    + change (run [] s) with s. cbn. lia.
    + rewrite run_snoc, filter_app, length_app.
      pose proof (dispatch_loops e (run events s)) as K.
      cbn [filter]. destruct (isStart e); cbn [andb List.length] in *.
      * destruct (negb _); lia.
      * lia.
  - intros now frame E. cbn [dispatch]. unfold startScanning.
    rewrite E. reflexivity.
Qed.

(** X11. [startScanning] at its edges.  When the scan is running it
    changes nothing.  Otherwise it empties the window and resets the
    counters; without a video that has a stream it ends with the scan
    stopped and nothing scheduled; with one it ends with the scan running
    and one loop iteration under way, or none at all if the canvas is
    missing. *)
Theorem startScanning_edges :
  forall (now : Z) (frame : Frame) (s : App),
    let s' := startScanning now frame s in
    (isScanning s = true -> s' = s)
    /\ (isScanning s = false ->
        detectionHistory s' = [] /\ detectionCount s' = 0
        /\ scanStartTime s' = now)
    /\ (isScanning s = false -> scanner (dom s) <> Some true ->
        isScanning s' = false /\ host s' = host s /\ frameCount s' = 0)
    /\ (isScanning s = false -> scanner (dom s) = Some true ->
        isScanning s' = true
        /\ loopsInFlight s'
           = (loopsInFlight s + if scannerCanvas (dom s) then 1 else 0)%nat).
Proof.
  intros now frame s s'. subst s'. unfold startScanning.
  split; [intros ->; reflexivity|].
  split; [|split].
  - intros ->. destruct (scanner _) as [[|]|];
      unfold scanLoop, nextFrame, continueScanning, stopScanning; cbn;
        repeat break_match; cbn; auto.
  - intros -> V. destruct (scanner _) as [[|]|]; [congruence| |];
      unfold stopScanning; cbn; auto.
  - intros -> V.
    change (scanner (dom (set_counters 0 now 0 ?x))) with (scanner (dom s)).
    rewrite V.
    unfold scanLoop, nextFrame, continueScanning, loopsInFlight. cbn.
    rewrite V.
    destruct (scannerCanvas (dom s)); cbn;
      repeat break_match; cbn; split; auto; lia.
Qed.

(** ** The debug timer *)

Lemma debugInterval_displayProductInfo (pd : option ProductData)
    (code : string) (s : App) :
  debugInterval (displayProductInfo pd code s) = debugInterval s.
Proof.
  unfold displayProductInfo, displayProductError, saveHistory. by_cases.
Qed.

Lemma debugInterval_processScan (code format : string) (now : Z) (s : App) :
  debugInterval (processScan code format now s) = debugInterval s.
Proof.
  unfold processScan, searchProduct.
  assert (A : forall r x, debugInterval (addToHistory r x) = debugInterval x).
  { intros r x. unfold addToHistory, saveHistory. by_cases. }
  assert (B : forall r x, debugInterval (showResults r x) = debugInterval x).
  { intros r x. unfold showResults. by_cases. }
  destruct (autoSearch _); [destruct (isValidUPCorEAN code)|];
    cbn [debugInterval set_host];
    rewrite ?debugInterval_displayProductInfo, B, A; reflexivity.
Qed.

Lemma flags_nextFrame (s : App) :
  isScanning (nextFrame s) = isScanning s
  /\ debugInterval (nextFrame s) = debugInterval s.
Proof.
  unfold nextFrame, continueScanning. cbn. destruct (isScanning s) eqn:E; auto.
Qed.

Lemma flags_scanLoop (frame : Frame) (s : App) :
  isScanning (scanLoop frame s) = isScanning s
  /\ debugInterval (scanLoop frame s) = debugInterval s.
Proof.
  unfold scanLoop.
  destruct (isScanning s) eqn:E; cbn [negb]; [|auto].
  destruct (scanner (dom s)); [|auto].
  destruct (scannerCanvas (dom s)); [|auto].
  destruct frame.
  - unfold continueScanning. rewrite E. cbn. auto.
  - destruct (flags_nextFrame s) as [H1 H2]. rewrite H1, H2. auto.
  - destruct (codeReader s); [cbn; auto|].
    destruct (flags_nextFrame s) as [H1 H2]. rewrite H1, H2. auto.
Qed.

Lemma dispatch_debug_timer (e : Event) (s : App) :
  (debugInterval s = true -> isScanning s = true) ->
  debugInterval (dispatch e s) = true -> isScanning (dispatch e s) = true.
Proof.
  intros I.
  destruct e as [frame|decoded tPush tCutoff tScan|code resp|now frame|
                 |value format|now| |confirmed|index| |];
    cbn [dispatch].
  - destruct (pendingFrames (host s)); [exact I|].
    destruct (flags_scanLoop frame
                (set_host (set_pendingFrames n (host s)) s)) as [-> ->].
    exact I.
  - destruct (pendingDecodes (host s)); [exact I|].
    set (x := set_host _ s).
    change (debugInterval x = true -> isScanning x = true) in I.
    clearbody x. unfold scanLoop_resume.
    assert (K : debugInterval (nextFrame x) = true ->
                isScanning (nextFrame x) = true).
    { destruct (flags_nextFrame x) as [-> ->]. exact I. }
    destruct decoded as [result|]; [|exact K].
    destruct (nonEmpty _); [|exact K].
    rewrite handleDetection_eq.
    destruct (negb _ || _); cbn [snd]; [|exact I].
    unfold confirmDetection. rewrite debugInterval_processScan.
    unfold stopScanning. cbn.
    destruct (isScanning x) eqn:E; cbn; [discriminate|].
    intros D. specialize (I D). congruence.
  - destruct (takeLookup _ _); [|exact I].
    unfold searchProduct_resume. rewrite debugInterval_displayProductInfo.
    destruct (scanSide_fields _ _
                (scanSide_displayProductInfo (Some (lookedUp code resp)) code
                   (set_host (set_pendingLookups l (host s)) s))) as (H & _).
    unfold lookedUp in H. rewrite H. exact I.
  - unfold startScanning. destruct (isScanning s) eqn:E; [rewrite E; exact I|].
    destruct (scanner _) as [[|]|].
    + intros _.
      match goal with
      | |- context [scanLoop frame ?x] =>
          destruct (flags_scanLoop frame x) as [H _]
      end.
      destruct (debugMode _);
        [change (isScanning (set_debugInterval true ?y)) with (isScanning y)|];
        rewrite H; reflexivity.
    + unfold stopScanning. cbn. discriminate.
    + unfold stopScanning. cbn. discriminate.
  - unfold stopScanning. destruct (isScanning s) eqn:E; cbn.
    + discriminate.
    + rewrite E. exact I.
  - exact I.
  - unfold submitManualCode.
    destruct (manualCode _) as [value|]; [|exact I].
    destruct (manualFormat _) as [format|]; [|exact I].
    destruct (nonEmpty (trim value)); [|exact I].
    cbn [snd]. cbn [debugInterval isScanning set_dom].
    rewrite debugInterval_processScan.
    destruct (scanSide_fields _ _
                (scanSide_processScan (trim value) format now s)) as (-> & _).
    exact I.
  - unfold updateSettings, saveSettings. cbn.
    destruct (storageWorks (host s)); exact I.
  - unfold clearHistory, saveHistory. destruct confirmed; [|exact I].
    cbn. destruct (storageWorks (host s)); exact I.
  - destruct (scanSide_fields _ _ (scanSide_showHistoryDetails index s))
      as (-> & _).
    unfold showHistoryDetails.
    destruct (nth_error _ _) as [scan|]; [|exact I].
    assert (B : debugInterval (showResults scan s) = debugInterval s).
    { unfold showResults. destruct (productInfo (dom s)); reflexivity. }
    destruct (Scan.product scan) as [product|];
      [destruct (nonEmpty product)|];
      rewrite ?debugInterval_displayProductInfo, B; exact I.
  - exact I.
  - exact I.
Qed.

(** X10. The debug timer does not outlive a scan: if at first the timer
    is set only while the scan is running, that is so after every run of
    events. *)
Theorem run_debug_timer_only_while_scanning :
  forall (events : list Event) (s : App),
    (debugInterval s = true -> isScanning s = true) ->
    debugInterval (run events s) = true -> isScanning (run events s) = true.
Proof.
  intros events s I. induction events as [|e events IH] using rev_ind.
  - exact I.
  - rewrite run_snoc. apply dispatch_debug_timer. exact IH.
Qed.

(** ** Looking at a record of the history *)

(** X12. [showHistoryDetails] with an index that is out of range changes
    nothing.  For a record that has a product that is not empty it
    writes that product into the head of the history, whichever record
    was asked for (given [#productInfo] in the page); for a record
    without one the history is unchanged. *)
Theorem showHistoryDetails_writes_head :
  forall (index : nat) (s : App),
    (nth_error (scanHistory s) index = None ->
     showHistoryDetails index s = s)
    /\ (forall (scan head : Scan.t) (older : list Scan.t) (p : string)
               (card : Card),
           nth_error (scanHistory s) index = Some scan ->
           Scan.product scan = Some p -> nonEmpty p = true ->
           productInfo (dom s) = Some card ->
           scanHistory s = head :: older ->
           scanHistory (showHistoryDetails index s)
           = Scan.with_product (Some p) head :: older)
    /\ (forall scan : Scan.t,
           nth_error (scanHistory s) index = Some scan ->
           Scan.product scan = None \/ Scan.product scan = Some "" ->
           scanHistory (showHistoryDetails index s) = scanHistory s).
Proof.
  intros index s. unfold showHistoryDetails. split; [|split].
  - intros ->. reflexivity.
  - intros scan head older p card -> -> -> C H.
    rewrite displayProductInfo_scanHistory, showResults_productInfo,
      showResults_scanHistory, C, H.
    reflexivity.
  - intros scan -> [-> | ->]; cbn [nonEmpty]; apply showResults_scanHistory.
Qed.

(** ** Automatic search switched off *)

Lemma productInfo_addToHistory (r : Scan.t) (s : App) :
  productInfo (dom (addToHistory r s)) = productInfo (dom s).
Proof. rewrite addToHistory_dom. reflexivity. Qed.

(** X13. With automatic search off, [processScan] starts no lookup, the
    record it adds keeps an empty product, and the product panel is left
    on the loading card that [showResults] put there. *)
Theorem processScan_without_autoSearch :
  forall (code format : string) (now : Z) (s : App),
    autoSearch (settings s) = false ->
    let s' := processScan code format now s in
    pendingLookups (host s') = pendingLookups (host s)
    /\ scanHistory s'
       = newScanData code format now :: firstn 49 (scanHistory s)
    /\ productInfo (dom s')
       = match productInfo (dom s) with
         | Some _ => Some CardLoading
         | None => None
         end.
Proof.
  intros code format now s A s'. subst s'.
  rewrite pendingLookups_processScan, processScan_scanHistory, A.
  unfold productOnReturn. rewrite A. cbn [andb].
  split; [reflexivity|]. split; [reflexivity|].
  unfold processScan. rewrite showResults_settings.
  destruct (scanSide_fields _ _ (scanSide_addToHistory
                                   (newScanData code format now) s))
    as (_ & _ & -> & _).
  rewrite A, showResults_productInfo, productInfo_addToHistory.
  destruct (productInfo (dom s)); reflexivity.
Qed.

(** ** Text that is cut short *)

Lemma length_append (a b : string) :
  String.length (a ++ b) = (String.length a + String.length b)%nat.
Proof. induction a as [|c a IH]; cbn; [reflexivity|]. rewrite IH. reflexivity. Qed.

(** A string splits into its first [n] code units and a rest. *)
Lemma substring_prefix (n : nat) (s : string) :
  (n <= String.length s)%nat ->
  exists rest : string,
    s = substring 0 n s ++ rest /\ String.length (substring 0 n s) = n.
Proof.
  revert s. induction n as [|n IH]; intros s L.
  - exists s. destruct s; cbn; auto.
  - destruct s as [|c s]; cbn in L; [lia|].
    destruct (IH s) as (rest & E & Len); [lia|].
    exists rest. cbn. split; [f_equal; exact E|f_equal; exact Len].
Qed.

Lemma substring_of_append (a b : string) :
  substring 0 (String.length a) (a ++ b) = a.
Proof.
  induction a as [|c a IH]; cbn.
  - destruct b; reflexivity.
  - f_equal. exact IH.
Qed.

(** X14. [truncateText] returns at most 203 code units; a text of at most
    200 comes back as it is; a longer one comes back as its first 200
    code units followed by three dots; and truncating twice is the same
    as truncating once. *)
Theorem truncateText_bounds :
  forall text : string,
    (String.length (truncateText text) <= 203)%nat
    /\ ((String.length text <= 200)%nat -> truncateText text = text)
    /\ ((200 < String.length text)%nat ->
        exists kept rest : string,
          text = kept ++ rest /\ String.length kept = 200%nat
          /\ truncateText text = kept ++ "...")
    /\ truncateText (truncateText text) = truncateText text.
Proof.
  intros text.
  assert (Short : forall t : string,
             (String.length t <= 200)%nat -> truncateText t = t).
  { intros t L. unfold truncateText.
    destruct t as [|c t]; [reflexivity|]. cbn [nonEmpty].
    destruct (Nat.ltb_spec 200 (String.length (String c t)));
      [lia|reflexivity]. }
  assert (Long : (200 < String.length text)%nat ->
                 exists kept rest : string,
                   text = kept ++ rest /\ String.length kept = 200%nat
                   /\ truncateText text = kept ++ "...").
  { intros L. destruct (substring_prefix 200 text) as (rest & E & Len); [lia|].
    exists (substring 0 200 text), rest.
    split; [exact E|]. split; [exact Len|].
    unfold truncateText.
    destruct text as [|c t]; [cbn in L; lia|]. cbn [nonEmpty].
    destruct (Nat.ltb_spec 200 (String.length (String c t)));
      [reflexivity|lia]. }
  destruct (Nat.le_gt_cases (String.length text) 200) as [L|L].
  - rewrite (Short text L). split; [lia|]. split; [auto|].
    split; [intros; lia|]. apply Short, L.
  - destruct (Long L) as (kept & rest & E & Len & T).
    split; [rewrite T, length_append, Len; cbn; lia|].
    split; [intros; lia|]. split; [exact Long|].
    rewrite T. unfold truncateText.
    assert (N : nonEmpty (kept ++ "...") = true).
    { destruct kept; [discriminate Len|reflexivity]. }
    rewrite N.
    destruct (Nat.ltb_spec 200 (String.length (kept ++ "..."))) as [_|B].
    + rewrite <- Len at 1. rewrite substring_of_append. reflexivity.
    + rewrite length_append, Len in B. cbn in B. lia.
Qed.

(** ** What Open Food Facts can answer *)

(** X15. [searchOpenFoodFacts] finds nothing unless the answer has status
    1 and a product.  What it finds has a name and a brand that are not
    empty, a description of at most 203 code units, and a card with two
    links: the product's page and a search for its name. *)
Theorem searchOpenFoodFacts_result :
  forall (code : string) (resp : FetchResult),
    (searchOpenFoodFacts code resp = None <->
     forall product : OffProduct, resp <> FetchJson 1 (Some product))
    /\ (forall pd : ProductData,
           searchOpenFoodFacts code resp = Some pd ->
           nonEmpty (name pd) = true /\ nonEmpty (brand pd) = true
           /\ (String.length (description pd) <= 203)%nat
           /\ cardLinks pd
              = [ Anchor (escapeHtml ("https://world.openfoodfacts.org/product/"
                                        ++ code)) "View Original";
                  Anchor ("https://www.google.com/search?q="
                            ++ encodeURIComponent P (name pd))
                         "Search Google" ]).
Proof.
  intros code resp. split.
  - split.
    + intros N product ->. discriminate N.
    + intros H. destruct (searchOpenFoodFacts code resp) as [pd|] eqn:E;
        [|reflexivity].
      apply searchOpenFoodFacts_found in E. destruct E as (product & -> & _).
      exfalso. exact (H product eq_refl).
  - intros pd E. apply searchOpenFoodFacts_found in E.
    destruct E as (product & _ & Hn & Hb & Hd & _ & Hu & Hl).
    split; [rewrite Hn, !nonEmpty_orElse; cbn; rewrite !orb_true_r; reflexivity|].
    split; [rewrite Hb, nonEmpty_orElse; cbn; rewrite orb_true_r; reflexivity|].
    split; [rewrite Hd; apply truncateText_bounds|].
    unfold cardLinks. rewrite Hu, Hl. reflexivity.
Qed.

(** ** White space around a typed code *)

Lemma trimStart_clean (s : string) :
  startsClean s = true -> trimStart s = s.
Proof.
  destruct s as [|c s]; cbn; [reflexivity|].
  destruct (isWhiteSpace c); [discriminate|reflexivity].
Qed.

Lemma startsClean_trimStart (s : string) : startsClean (trimStart s) = true.
Proof.
  induction s as [|c s IH]; cbn; [reflexivity|].
  destruct (isWhiteSpace c) eqn:W; [exact IH|]. cbn. rewrite W. reflexivity.
Qed.

Lemma startsClean_trimEnd (s : string) :
  startsClean s = true -> startsClean (trimEnd s) = true.
Proof.
  destruct s as [|c s]; cbn; [reflexivity|].
  intros W. destruct (trimEnd s); [|exact W].
  destruct (isWhiteSpace c) eqn:Ws; [discriminate W|].
  cbn. rewrite Ws. reflexivity.
Qed.

Lemma trimEnd_cons (c : ascii) (s : string) :
  trimEnd (String c s)
  = match trimEnd s with
    | EmptyString => if isWhiteSpace c then EmptyString
                     else String c EmptyString
    | kept => String c kept
    end.
Proof. reflexivity. Qed.

Lemma trimEnd_idempotent (s : string) : trimEnd (trimEnd s) = trimEnd s.
Proof.
  induction s as [|c s IH]; [reflexivity|].
  rewrite trimEnd_cons.
  destruct (trimEnd s) as [|k kept] eqn:T.
  - destruct (isWhiteSpace c) eqn:W; [reflexivity|].
    rewrite trimEnd_cons. cbn [trimEnd]. rewrite W. reflexivity.
  - rewrite trimEnd_cons, IH. reflexivity.
Qed.

Lemma trim_idempotent (s : string) : trim (trim s) = trim s.
Proof.
  unfold trim.
  rewrite (trimStart_clean (trimEnd (trimStart s))).
  - apply trimEnd_idempotent.
  - apply startsClean_trimEnd, startsClean_trimStart.
Qed.

(** [processScan] neither reads nor writes the manual-entry form. *)
Lemma withManual_saveHistory (c f : option string) (s : App) :
  saveHistory (withManual c f s) = withManual c f (saveHistory s).
Proof.
  unfold saveHistory, withManual. cbn [host set_dom].
  destruct (storageWorks (host s)); reflexivity.
Qed.

Lemma withManual_addToHistory (r : Scan.t) (c f : option string) (s : App) :
  addToHistory r (withManual c f s) = withManual c f (addToHistory r s).
Proof.
  unfold addToHistory.
  change (scanHistory (withManual c f s)) with (scanHistory s).
  destruct (_ <? _)%nat; rewrite <- withManual_saveHistory; reflexivity.
Qed.

Lemma withManual_showResults (r : Scan.t) (c f : option string) (s : App) :
  showResults r (withManual c f s) = withManual c f (showResults r s).
Proof.
  unfold showResults.
  change (productInfo (dom (withManual c f s))) with (productInfo (dom s)).
  destruct (productInfo (dom s)); reflexivity.
Qed.

Lemma withManual_displayProductInfo (pd : option ProductData) (code : string)
    (c f : option string) (s : App) :
  displayProductInfo pd code (withManual c f s)
  = withManual c f (displayProductInfo pd code s).
Proof.
  unfold displayProductInfo, displayProductError.
  change (productInfo (dom (withManual c f s))) with (productInfo (dom s)).
  destruct (productInfo (dom s)); [|reflexivity].
  destruct pd as [pd|]; [|reflexivity].
  cbv zeta.
  change (scanHistory (set_dom ?d (withManual c f s))) with (scanHistory s).
  change (scanHistory (set_dom ?d s)) with (scanHistory s).
  destruct (scanHistory s) as [|head older]; [reflexivity|].
  rewrite <- withManual_saveHistory. reflexivity.
Qed.

Lemma withManual_processScan (code format : string) (now : Z)
    (c f : option string) (s : App) :
  processScan code format now (withManual c f s)
  = withManual c f (processScan code format now s).
Proof.
  unfold processScan.
  rewrite withManual_addToHistory, withManual_showResults.
  change (settings (withManual c f ?x)) with (settings x).
  destruct (autoSearch _); [|reflexivity].
  unfold searchProduct. destruct (isValidUPCorEAN code); [reflexivity|].
  apply withManual_displayProductInfo.
Qed.

(** X16. White space around a typed code makes no difference: with the
    form in the page and a value that is not blank, submitting the value
    and submitting the trimmed value give the same outcome and the same
    application state. *)
Theorem submitManualCode_ignores_surrounding_space :
  forall (s : App) (now : Z) (value format : string),
    manualCode (dom s) <> None -> manualFormat (dom s) <> None ->
    trim value <> "" ->
    submitManualCode now (dispatch (TypeManual value format) s)
    = submitManualCode now (dispatch (TypeManual (trim value) format) s).
Proof.
  intros s now value format HC HF NB.
  assert (NE : nonEmpty (trim value) = true).
  { destruct (nonEmpty (trim value)) eqn:E; [reflexivity|].
    apply nonEmpty_false in E. contradiction. }
  cbn [dispatch]. unfold submitManualCode.
  cbn [dom set_dom manualCode manualFormat set_manual].
  destruct (manualCode (dom s)) as [old|]; [|contradiction].
  destruct (manualFormat (dom s)) as [oldF|]; [|contradiction].
  cbn [option_map]. rewrite trim_idempotent, NE.
  change (set_dom (set_manual (Some value) (Some format) (dom s)) s)
    with (withManual (Some value) (Some format) s).
  change (set_dom (set_manual (Some (trim value)) (Some format) (dom s)) s)
    with (withManual (Some (trim value)) (Some format) s).
  rewrite !withManual_processScan. reflexivity.
Qed.

(** ** The settings dialog *)

(** X17. The settings dialog round trip.  Saving the check boxes and
    showing the settings again leaves every check box as it was.  In a
    page that has all nine check boxes, showing the settings and saving
    them gives back the settings, provided their two thresholds are 2 and
    2000.  A check box that is not in the page makes its setting true on
    every save. *)
Theorem settings_dialog_round_trip :
  forall s : App,
    (forall c : Checkbox,
        checkbox (dom (loadSettingsUI (updateSettings s))) c
        = checkbox (dom s) c)
    /\ ((forall c : Checkbox, checkbox (dom s) c <> None) ->
        minDetections (settings s) = 2 ->
        detectionTimeout (settings s) = 2000 ->
        settings (updateSettings (loadSettingsUI s)) = settings s)
    /\ (forall c : Checkbox,
           checkbox (dom s) c = None ->
           settingOf (settings (updateSettings s)) c = true).
Proof.
  intros s. split; [|split].
  - intros c. unfold loadSettingsUI, updateSettings, saveSettings.
    cbn [settings set_settings dom host].
    destruct (storageWorks (host s)); cbn;
      destruct c; cbn; destruct (checkbox (dom s) _); reflexivity.
  - intros All M T.
    unfold updateSettings, saveSettings, loadSettingsUI.
    cbn [settings set_settings dom set_dom host checkbox set_checkbox].
    assert (K : forall c : Checkbox,
               match
                 match checkbox (dom s) c with
                 | Some _ => Some (settingOf (settings s) c)
                 | None => None
                 end
               with
               | Some b => b
               | None => true
               end = settingOf (settings s) c).
    { intros c. specialize (All c).
      destruct (checkbox (dom s) c); [reflexivity|contradiction]. }
    destruct (storageWorks (host s));
      cbn [settings set_settings set_host]; rewrite !K; cbn [settingOf];
      destruct (settings s) as [a b r m t [f1 f2 f3 f4 f5 f6]];
      cbn in *; subst; reflexivity.
  - intros c N. unfold updateSettings, saveSettings.
    cbn [settings set_settings host].
    destruct (storageWorks (host s)); cbn [settings set_settings set_host];
      destruct c; cbn [settingOf audioFeedback autoSearch
                       requireMultipleDetections formats UPC EAN Code128
                       Code39 QR DataMatrix];
      rewrite N; reflexivity.
Qed.

(** ** The loop after a detection and after a miss *)

Lemma dispatch_stalled (e : Event) (s : App) :
  isStop e = false -> stalled s ->
  stalled (dispatch e s)
  /\ decodeAttempts (host (dispatch e s)) = decodeAttempts (host s).
Proof.
  intros NS [E L].
  assert (F : pendingFrames (host s) = 0%nat)
    by (unfold loopsInFlight in L; lia).
  assert (D : pendingDecodes (host s) = 0%nat)
    by (unfold loopsInFlight in L; lia).
  assert (Side : forall x : App,
             scanSide x = scanSide s ->
             stalled x /\ decodeAttempts (host x) = decodeAttempts (host s)).
  { intros x H. pose proof (scanSide_loops _ _ H) as HL.
    apply scanSide_fields in H. destruct H as (H1 & _ & _ & _ & _ & H6).
    unfold stalled. rewrite H1, HL, H6. auto. }
  destruct e as [frame|decoded tPush tCutoff tScan|code resp|now frame|
                 |value format|now| |confirmed|index| |];
    cbn [dispatch]; try discriminate NS.
  - rewrite F. split; [split|]; auto.
  - rewrite D. split; [split|]; auto.
  - destruct (takeLookup _ _); [|split; [split|]; auto].
    apply Side. rewrite scanSide_searchProduct_resume. reflexivity.
  - unfold startScanning. rewrite E. split; [split|]; auto.
  - split; [split|]; auto.
  - apply Side, scanSide_submitManualCode.
  - unfold updateSettings, saveSettings, stalled, loopsInFlight in *. cbn.
    destruct (storageWorks (host s)); cbn; auto.
  - apply Side, scanSide_clearHistory.
  - apply Side, scanSide_showHistoryDetails.
  - split; [split|]; auto.
  - split; [split|]; auto.
Qed.

(** X18. A detection that stays pending stalls the scan: the iteration
    that made it returns without requesting a frame, so with that one
    iteration under way the scan is left flagged as running with no
    iteration under way at all.  From such a state no event short of
    [stopScanning] attempts a decode or changes the flag: a further
    [startScanning] finds the flag up and does nothing. *)
Theorem pending_detection_stalls_the_scan :
  (forall (s : App) (result : RawResult) (tPush tCutoff tScan : Z),
      isScanning s = true ->
      pendingDecodes (host s) = 1%nat -> pendingFrames (host s) = 0%nat ->
      nonEmpty (getText result) = true ->
      requireMultipleDetections (settings s) = true ->
      Z.of_nat (countCode (getText result) (windowOf result tPush tCutoff s))
      < minDetections (settings s) ->
      stalled (dispatch (DecodeSettled (Some result) tPush tCutoff tScan) s))
  /\ (forall (s : App) (events : list Event),
         stalled s ->
         Forall (fun e => isStop e = false) events ->
         stalled (run events s)
         /\ decodeAttempts (host (run events s)) = decodeAttempts (host s)).
Proof.
  split.
  - intros s result tPush tCutoff tScan E D F N R B.
    cbn [dispatch]. rewrite D. unfold scanLoop_resume. rewrite N.
    rewrite pending_when_below.
    + unfold stalled, loopsInFlight. cbn. rewrite F. auto.
    + exact R.
    + exact B.
  - intros s events St NS. unfold run. revert s St.
    induction NS as [|e events He _ IH]; intros s St; [auto|].
    cbn [fold_left].
    destruct (dispatch_stalled e s He St) as [St' A].
    destruct (IH _ St') as [St'' A'].
    split; [exact St''|]. rewrite A'. exact A.
Qed.

(** X19. A miss keeps the loop going.  While the scan is running, a
    decoder answer without a code counts the frame and requests the
    next one, and a frame callback (video and canvas in the page) starts
    one decode if the reader is loaded and the frame could be read, or
    else requests the next frame: the number of iterations under way
    stays the same. *)
Theorem miss_keeps_the_loop_going :
  forall s : App,
    isScanning s = true ->
    (forall (decoded : option RawResult) (tPush tCutoff tScan : Z),
        pendingDecodes (host s) <> 0%nat ->
        isMiss decoded = true ->
        let s' := dispatch (DecodeSettled decoded tPush tCutoff tScan) s in
        isScanning s' = true
        /\ loopsInFlight s' = loopsInFlight s
        /\ frameCount s' = frameCount s + 1
        /\ decodeAttempts (host s') = decodeAttempts (host s))
    /\ (forall frame : Frame,
           pendingFrames (host s) <> 0%nat ->
           scanner (dom s) <> None -> scannerCanvas (dom s) = true ->
           let s' := dispatch (AnimationFrame frame) s in
           isScanning s' = true
           /\ loopsInFlight s' = loopsInFlight s
           /\ decodeAttempts (host s')
              = match frame with
                | FrameReady =>
                    if codeReader s then S (decodeAttempts (host s))
                    else decodeAttempts (host s)
                | _ => decodeAttempts (host s)
                end).
Proof.
  intros s E. split.
  - intros decoded tPush tCutoff tScan D M s'. subst s'. cbn [dispatch].
    destruct (pendingDecodes (host s)) as [|n] eqn:PD; [contradiction|].
    assert (K : scanLoop_resume decoded tPush tCutoff tScan
                  (set_host (set_decodes n (decodeAttempts (host s)) (host s)) s)
                = nextFrame
                    (set_host (set_decodes n (decodeAttempts (host s)) (host s))
                       s)).
    { unfold scanLoop_resume. destruct decoded as [result|]; [|reflexivity].
      cbn in M. destruct (nonEmpty (getText result)); [discriminate M|].
      reflexivity. }
    rewrite K. unfold nextFrame, continueScanning, loopsInFlight. cbn.
    rewrite E. cbn. rewrite PD. repeat split; auto; lia.
  - intros frame F V C s'. subst s'. cbn [dispatch].
    destruct (pendingFrames (host s)) as [|n] eqn:PF; [contradiction|].
    unfold scanLoop, nextFrame, continueScanning, loopsInFlight. cbn.
    rewrite E, C. cbn.
    destruct (scanner (dom s)); [|contradiction].
    destruct frame; cbn; rewrite ?E; try destruct (codeReader s); cbn;
      rewrite ?E, ?PF; cbn; repeat split; auto; lia.
Qed.

End Methods.

(** * Closed instances *)

(** Two observations of one code, half a second apart, from a freshly
    started scan with the default settings. *)
Lemma handleDetection_confirmation_rule_witness :
  let s := startScanning 1700000000000 FrameReady freshApp in
  let first :=
    handleDetection samplePlatform sampleResult
      1700000000200 1700000000200 1700000000200 s in
  let second :=
    handleDetection samplePlatform sampleResult
      1700000000700 1700000000700 1700000001000 (snd first) in
  fst first = Pending
  /\ fst second = Confirmed "5901234123457" "EAN_13".
Proof.
  destruct (handleDetection_confirmation_rule samplePlatform)
    as (_ & _ & Two & _).
  apply (Two (startScanning 1700000000000 FrameReady freshApp)
             sampleResult sampleResult
             1700000000200 1700000000200 1700000000200
             1700000000700 1700000000700 1700000001000);
    try reflexivity; vm_compute; congruence.
Defined.

(** The pruned window of the second of these observations. *)
Lemma handleDetection_window_is_recent_witness :
  let s := startScanning 1700000000000 FrameReady freshApp in
  let first :=
    handleDetection samplePlatform sampleResult
      1700000000200 1700000000200 1700000000200 s in
  Forall (fun d => 1700000000700 - Detection.timestamp d < 2000)
    (detectionHistory
       (snd (handleDetection samplePlatform sampleResult
               1700000000700 1700000000700 1700000001000 (snd first)))).
Proof.
  intros s first.
  exact (proj1 (handleDetection_window_is_recent samplePlatform (snd first)
                  sampleResult 1700000000700 1700000000700 1700000001000)).
Defined.

(** C2, the statement as specified fails: the second observation
    confirms and both entries are still in the window, so that a third
    observation, were it to arrive before the scan is started again,
    would confirm at once. *)
Lemma confirm_leaves_window_filled :
  let s := startScanning 1700000000000 FrameReady freshApp in
  let first :=
    handleDetection samplePlatform sampleResult
      1700000000200 1700000000200 1700000000200 s in
  let second :=
    handleDetection samplePlatform sampleResult
      1700000000700 1700000000700 1700000001000 (snd first) in
  fst second = Confirmed "5901234123457" "EAN_13"
  /\ detectionHistory (snd second)
     = [ Detection.make "5901234123457" "EAN_13" 1700000000200;
         Detection.make "5901234123457" "EAN_13" 1700000000700 ]
  /\ detectionHistory (snd second) <> []
  /\ fst (handleDetection samplePlatform sampleResult
            1700000000900 1700000000900 1700000001000 (snd second))
     = Confirmed "5901234123457" "EAN_13".
Proof.
  cbv zeta. split; [vm_compute; reflexivity|].
  split; [vm_compute; reflexivity|].
  split; [vm_compute; discriminate|].
  vm_compute. reflexivity.
Qed.

(** The same confirmation: the scan is stopped, and starting it again
    empties the window. *)
Lemma confirm_keeps_window_restart_clears_witness :
  let s := startScanning 1700000000000 FrameReady freshApp in
  let first :=
    handleDetection samplePlatform sampleResult
      1700000000200 1700000000200 1700000000200 s in
  let second :=
    handleDetection samplePlatform sampleResult
      1700000000700 1700000000700 1700000001000 (snd first) in
  fst second = Confirmed "5901234123457" "EAN_13"
  /\ isScanning (snd second) = false
  /\ detectionHistory (startScanning 1700000005000 FrameReady (snd second))
     = [].
Proof.
  intros s first second.
  assert (C : fst second = Confirmed "5901234123457" "EAN_13")
    by (vm_compute; reflexivity).
  split; [exact C|].
  destruct (confirm_keeps_window_restart_clears samplePlatform (snd first)
              sampleResult 1700000000700 1700000000700 1700000001000
              "5901234123457" "EAN_13" C) as (Stopped & _ & Restart).
  split; [exact Stopped|].
  exact (proj1 (Restart 1700000005000 FrameReady)).
Defined.

(** A full history: 49 records and an older one behind them. *)
Lemma addToHistory_bounded_most_recent_first_witness :
  let mid := Scan.make "012345678905" "UPC-A" "2023-11-14T22:13:20.000Z" None in
  let oldest := Scan.make "40170725" "EAN-8" "2023-11-14T22:13:20.000Z" None in
  let newest :=
    Scan.make "5901234123457" "EAN-13" "2023-11-14T22:13:21.000Z" None in
  let s := set_scanHistory (repeat mid 49 ++ [oldest]) freshApp in
  List.length (scanHistory s) = 50%nat
  /\ scanHistory (addToHistory newest s)
     = newest :: removelast (repeat mid 49 ++ [oldest]).
Proof.
  intros mid oldest newest s.
  assert (L : List.length (scanHistory s) = 50%nat) by reflexivity.
  split; [exact L|].
  destruct addToHistory_bounded_most_recent_first as (One & _).
  destruct (One newest s) as (_ & _ & _ & _ & Full).
  exact (Full L).
Defined.

(** A scan that has a frame callback scheduled is stopped; the callback
    and a late decoder answer follow. *)
Lemma stopScanning_halts_scanLoop_witness :
  let s := startScanning 1700000000000 DrawThrows freshApp in
  let events :=
    [ AnimationFrame FrameReady;
      DecodeSettled None 1700000000200 1700000000200 1700000000200;
      AnimationFrame FrameReady ] in
  let s' := run samplePlatform events (stopScanning s) in
  (isScanning s = true /\ pendingFrames (host s) = 1%nat)
  /\ Forall (fun e => isStart e = false) events
  /\ isScanning s' = false
  /\ decodeAttempts (host s') = decodeAttempts (host s)
  /\ (pendingFrames (host s') <= pendingFrames (host s))%nat.
Proof.
  intros s events s'.
  assert (NS : Forall (fun e => isStart e = false) events)
    by (repeat constructor).
  split; [split; reflexivity|].
  split; [exact NS|].
  destruct (stopScanning_halts_scanLoop samplePlatform)
    as (_ & _ & _ & _ & _ & Run).
  exact (Run s events NS).
Defined.

(** C6, the statement as specified fails: two codes are submitted one after the
    other, and the answer for the first arrives when the second is the
    head; the head, which carries the second code, gets the product of
    the first. *)
Lemma stale_lookup_overwrites_newer_head :
  let s :=
    run samplePlatform
      [ TypeManual "5901234123457" "EAN-13"; SubmitManual 1700000000000;
        TypeManual "012345678905" "UPC-A"; SubmitManual 1700000001000 ]
      freshApp in
  let s' :=
    dispatch samplePlatform
      (FetchSettled "5901234123457" (FetchJson 1 (Some sampleProduct))) s in
  scanHistory s
  = [ Scan.make "012345678905" "UPC-A" "2023-11-14T22:13:21.000Z" None;
      Scan.make "5901234123457" "EAN-13" "2023-11-14T22:13:20.000Z" None ]
  /\ pendingLookups (host s) = ["5901234123457"; "012345678905"]
  /\ scanHistory s'
     = [ Scan.make "012345678905" "UPC-A" "2023-11-14T22:13:21.000Z"
           (Some "Milk");
         Scan.make "5901234123457" "EAN-13" "2023-11-14T22:13:20.000Z" None ].
Proof.
  cbv zeta. repeat split; vm_compute; reflexivity.
Qed.

(** The same two submissions; the answer for the second code arrives. *)
Lemma lookup_backfills_head_only_witness :
  let s :=
    run samplePlatform
      [ TypeManual "5901234123457" "EAN-13"; SubmitManual 1700000000000;
        TypeManual "012345678905" "UPC-A"; SubmitManual 1700000001000 ]
      freshApp in
  let head := Scan.make "012345678905" "UPC-A" "2023-11-14T22:13:21.000Z" None in
  let older :=
    [Scan.make "5901234123457" "EAN-13" "2023-11-14T22:13:20.000Z" None] in
  (In "012345678905" (pendingLookups (host s))
   /\ productInfo (dom s) = Some CardLoading
   /\ scanHistory s = head :: older)
  /\ scanHistory
       (dispatch samplePlatform
          (FetchSettled "012345678905" (FetchJson 1 (Some sampleProduct))) s)
     = Scan.with_product (Some "Milk") head :: older.
Proof.
  intros s head older.
  assert (I : In "012345678905" (pendingLookups (host s)))
    by (right; left; reflexivity).
  assert (C : productInfo (dom s) = Some CardLoading) by reflexivity.
  assert (H : scanHistory s = head :: older) by reflexivity.
  split; [auto|].
  destruct (lookup_backfills_head_only samplePlatform s "012345678905"
              (FetchJson 1 (Some sampleProduct))) as (_ & _ & _ & Fill & _).
  exact (Fill head older CardLoading I C H).
Defined.

(** C7, the statement as specified fails: the code is confirmed by two
    observations, Open Food Facts answers that it has no such product,
    and the head of the history no longer has an empty product. *)
Lemma notFound_fills_head_product :
  let s := startScanning 1700000000000 FrameReady freshApp in
  let first :=
    handleDetection samplePlatform sampleResult
      1700000000200 1700000000200 1700000000200 s in
  let second :=
    handleDetection samplePlatform sampleResult
      1700000000700 1700000000700 1700000001000 (snd first) in
  let s' :=
    dispatch samplePlatform
      (FetchSettled "5901234123457" (FetchJson 0 None)) (snd second) in
  fst second = Confirmed "5901234123457" "EAN_13"
  /\ searchOpenFoodFacts "5901234123457" (FetchJson 0 None) = None
  /\ scanHistory (snd second)
     = [Scan.make "5901234123457" "EAN_13" "2023-11-14T22:13:21.000Z" None]
  /\ scanHistory s'
     = [Scan.make "5901234123457" "EAN_13" "2023-11-14T22:13:21.000Z"
          (Some "Product Code: 5901234123457")]
  /\ option_map Scan.product (hd_error (scanHistory s')) <> Some None.
Proof.
  cbv zeta. repeat split; vm_compute; try reflexivity; discriminate.
Qed.

(** The same confirmation and answer: the card and the head. *)
Lemma notFound_shows_links_and_names_head_witness :
  let s := startScanning 1700000000000 FrameReady freshApp in
  let first :=
    handleDetection samplePlatform sampleResult
      1700000000200 1700000000200 1700000000200 s in
  let second :=
    handleDetection samplePlatform sampleResult
      1700000000700 1700000000700 1700000001000 (snd first) in
  let head :=
    Scan.make "5901234123457" "EAN_13" "2023-11-14T22:13:21.000Z" None in
  let s' :=
    searchProduct_resume samplePlatform "5901234123457" (FetchJson 0 None)
      (snd second) in
  (searchOpenFoodFacts "5901234123457" (FetchJson 0 None) = None
   /\ productInfo (dom (snd second)) = Some CardLoading
   /\ scanHistory (snd second) = [head])
  /\ productInfo (dom s')
     = Some (CardProduct
               (cardBody samplePlatform
                  (createFallbackResult samplePlatform "5901234123457"))
               (fallbackAnchors samplePlatform "5901234123457"))
  /\ scanHistory s'
     = [Scan.with_product (Some "Product Code: 5901234123457") head].
Proof.
  intros s first second head s'.
  assert (NF : searchOpenFoodFacts "5901234123457" (FetchJson 0 None) = None)
    by reflexivity.
  assert (C : productInfo (dom (snd second)) = Some CardLoading)
    by reflexivity.
  assert (H : scanHistory (snd second) = [head]) by reflexivity.
  split; [auto|].
  exact (notFound_shows_links_and_names_head samplePlatform (snd second)
           "5901234123457" (FetchJson 0 None) CardLoading head [] NF C H).
Defined.

(** Three spaces in the form. *)
Lemma submitManualCode_rejects_blank_witness :
  let s := dispatch samplePlatform (TypeManual "   " "UPC-A") freshApp in
  (manualCode (dom s) = Some "   " /\ manualFormat (dom s) = Some "UPC-A"
   /\ trim "   " = "")
  /\ fst (submitManualCode samplePlatform 1700000000000 s) = EmptyCodeError
  /\ snd (submitManualCode samplePlatform 1700000000000 s) = s.
Proof.
  intros s.
  assert (C : manualCode (dom s) = Some "   ") by reflexivity.
  assert (F : manualFormat (dom s) = Some "UPC-A") by reflexivity.
  assert (T : trim "   " = "") by reflexivity.
  split; [auto|].
  destruct (submitManualCode_rejects_blank samplePlatform s 1700000000000
              "   " "UPC-A" C F) as (_ & Reject).
  destruct (Reject T) as (R1 & R2 & _).
  split; [exact R1|exact R2].
Defined.

(** The code and format of the specification's example in the form. *)
Lemma submitManualCode_prepends_record_witness :
  let s :=
    dispatch samplePlatform (TypeManual "012345678905" "UPC-A") freshApp in
  let after := submitManualCode samplePlatform 1700000000000 s in
  (manualCode (dom s) = Some "012345678905"
   /\ manualFormat (dom s) = Some "UPC-A"
   /\ trim "012345678905" <> "")
  /\ fst after = Submitted "012345678905" "UPC-A"
  /\ scanHistory (snd after)
     = [Scan.make "012345678905" "UPC-A" "2023-11-14T22:13:20.000Z" None].
Proof.
  intros s after.
  assert (C : manualCode (dom s) = Some "012345678905") by reflexivity.
  assert (F : manualFormat (dom s) = Some "UPC-A") by reflexivity.
  assert (T : trim "012345678905" <> "") by (vm_compute; discriminate).
  split; [auto|].
  destruct (submitManualCode_prepends_record samplePlatform s 1700000000000
              "012345678905" "UPC-A" C F T) as (R1 & _ & _ & _ & R5 & _).
  split; [exact R1|].
  exact (R5 (or_introl eq_refl)).
Defined.

(** The fresh application: storage works. *)
Lemma updateSettings_fixes_thresholds_witness :
  storageWorks (host freshApp) = true
  /\ storedSettings (host (updateSettings freshApp))
     = Some (settings (updateSettings freshApp))
  /\ minDetections (settings (updateSettings freshApp)) = 2
  /\ detectionTimeout (settings (updateSettings freshApp)) = 2000.
Proof.
  assert (W : storageWorks (host freshApp) = true) by reflexivity.
  split; [exact W|].
  destruct (updateSettings_fixes_thresholds freshApp) as (M & T & Store).
  split; [exact (Store W)|]. split; [exact M|exact T].
Defined.

(** * Closed instances of the further properties *)

(** Two observations of one code exactly [detectionTimeout] apart. *)
Lemma stale_entries_do_not_count_witness :
  let s := startScanning 1700000000000 FrameReady freshApp in
  let s1 :=
    snd (handleDetection samplePlatform sampleResult
           1700000000200 1700000000200 1700000000200 s) in
  (Forall (fun d => Detection.timestamp d
                    <= 1700000002200 - detectionTimeout (settings s1))
          (detectionHistory s1)
   /\ requireMultipleDetections (settings s1) = true
   /\ 2 <= minDetections (settings s1))
  /\ fst (handleDetection samplePlatform sampleResult
            1700000002200 1700000002200 1700000002200 s1) = Pending.
Proof.
  intros s s1.
  assert (Old : Forall (fun d => Detection.timestamp d
                                 <= 1700000002200
                                    - detectionTimeout (settings s1))
                       (detectionHistory s1)).
  { assert (H : detectionHistory s1
                 = [Detection.make "5901234123457" "EAN_13" 1700000000200])
      by (vm_compute; reflexivity).
    assert (K : detectionTimeout (settings s1) = 2000)
      by (vm_compute; reflexivity).
    rewrite H, K. constructor; [cbn; lia|constructor]. }
  assert (R : requireMultipleDetections (settings s1) = true)
    by (vm_compute; reflexivity).
  assert (M : 2 <= minDetections (settings s1)).
  { assert (K : minDetections (settings s1) = 2) by (vm_compute; reflexivity).
    rewrite K. lia. }
  split; [auto|].
  exact (proj1 (stale_entries_do_not_count samplePlatform s1 sampleResult
                  1700000002200 1700000002200 1700000002200 Old R M)).
Defined.

(** An EAN-13 code, a QR text, and the EAN-13 code again. *)
Lemma interleaved_code_does_not_reset_witness :
  let s := startScanning 1700000000000 FrameReady freshApp in
  let other := {| getText := "hello"; getBarcodeFormat := Some "QR_CODE" |} in
  let first :=
    handleDetection samplePlatform sampleResult
      1700000000200 1700000000200 1700000000200 s in
  let second :=
    handleDetection samplePlatform other
      1700000000400 1700000000400 1700000000400 (snd first) in
  let third :=
    handleDetection samplePlatform sampleResult
      1700000000700 1700000000700 1700000001000 (snd second) in
  (detectionHistory s = [] /\ getText other <> getText sampleResult)
  /\ fst first = Pending /\ fst second = Pending
  /\ fst third = Confirmed "5901234123457" "EAN_13".
Proof.
  intros s other first second third.
  assert (N : getText other <> getText sampleResult) by discriminate.
  split; [split; [reflexivity|exact N]|].
  destruct (interleaved_code_does_not_reset samplePlatform s
              sampleResult other sampleResult
              1700000000200 1700000000200 1700000000200
              1700000000400 1700000000400 1700000000400
              1700000000700 1700000000700 1700000001000)
    as (H1 & H2 & H3 & _);
    try reflexivity; try exact N; try (vm_compute; congruence).
  auto.
Defined.


(** A manual entry and the answer to its lookup, from an empty history. *)
Lemma run_history_well_formed_witness :
  let events :=
    [ TypeManual "012345678905" "UPC-A"; SubmitManual 1700000000000;
      FetchSettled "012345678905" (FetchJson 1 (Some sampleProduct)) ] in
  Forall (fun r => nonEmpty (Scan.code r) = true /\ properProduct r = true)
         (scanHistory freshApp)
  /\ Forall (fun r => nonEmpty (Scan.code r) = true /\ properProduct r = true)
            (scanHistory (run samplePlatform events freshApp)).
Proof.
  intros events.
  assert (E : Forall (fun r => nonEmpty (Scan.code r) = true
                               /\ properProduct r = true)
                     (scanHistory freshApp)) by constructor.
  split; [exact E|].
  exact (run_history_well_formed samplePlatform events freshApp E).
Defined.

(** A QR text and a UPC-A code are entered; one lookup is under way. *)
Lemma run_lookups_only_for_digit_codes_witness :
  let events :=
    [ TypeManual "hello" "QR Code"; SubmitManual 1700000000000;
      TypeManual "012345678905" "UPC-A"; SubmitManual 1700000001000 ] in
  Forall (fun c => isValidUPCorEAN c = true) (pendingLookups (host freshApp))
  /\ Forall (fun c => isValidUPCorEAN c = true)
            (pendingLookups (host (run samplePlatform events freshApp))).
Proof.
  intros events.
  assert (E : Forall (fun c => isValidUPCorEAN c = true)
                     (pendingLookups (host freshApp))) by constructor.
  split; [exact E|].
  exact (proj1 (run_lookups_only_for_digit_codes samplePlatform events
                  freshApp E)).
Defined.

(** A manual entry, its lookup, and a save of the settings; then the page
    is loaded again. *)
Lemma reload_reproduces_history_and_settings_witness :
  let events :=
    [ TypeManual "012345678905" "UPC-A"; SubmitManual 1700000000000;
      FetchSettled "012345678905" (FetchJson 1 (Some sampleProduct));
      UpdateSettings ] in
  let s := run samplePlatform events (construct (dom freshApp) (host freshApp)) in
  storageWorks (host freshApp) = true
  /\ scanHistory (reload (dom freshApp) s) = scanHistory s
  /\ settings (reload (dom freshApp) s) = settings s.
Proof.
  intros events s.
  assert (W : storageWorks (host freshApp) = true) by reflexivity.
  split; [exact W|].
  destruct (reload_reproduces_history_and_settings samplePlatform
              (dom freshApp) (dom freshApp) (host freshApp) events W)
    as (H1 & H2 & _).
  split; [exact H1|exact H2].
Defined.

(** A second [startScanning] while the scan is running. *)
Lemma run_loops_bounded_by_starts_witness :
  let s := startScanning 1700000000000 FrameReady freshApp in
  isScanning s = true
  /\ loopsInFlight
       (dispatch samplePlatform (StartScanning 1700000000500 FrameReady) s)
     = loopsInFlight s.
Proof.
  intros s.
  assert (E : isScanning s = true) by reflexivity.
  split; [exact E|].
  exact (proj2 (run_loops_bounded_by_starts samplePlatform [] s)
           1700000000500 FrameReady E).
Defined.

(** A scan started with the debug display on. *)
Lemma run_debug_timer_only_while_scanning_witness :
  let events := [ToggleDebug; StartScanning 1700000000000 FrameReady] in
  let s := run samplePlatform events freshApp in
  (debugInterval freshApp = true -> isScanning freshApp = true)
  /\ debugInterval s = true /\ isScanning s = true.
Proof.
  intros events s.
  assert (I : debugInterval freshApp = true -> isScanning freshApp = true)
    by discriminate.
  assert (D : debugInterval s = true) by reflexivity.
  split; [exact I|]. split; [exact D|].
  exact (run_debug_timer_only_while_scanning samplePlatform events freshApp
           I D).
Defined.

(** A page whose video has no stream. *)
Lemma startScanning_edges_witness :
  let s := set_dom (set_manual None None
                      {| checkbox := fun _ => None; manualCode := None;
                         manualFormat := None; scanner := Some false;
                         scannerCanvas := true; productInfo := None |})
                   freshApp in
  (isScanning s = false /\ scanner (dom s) <> Some true)
  /\ isScanning (startScanning 1700000000000 FrameReady s) = false
  /\ host (startScanning 1700000000000 FrameReady s) = host s.
Proof.
  intros s.
  assert (E : isScanning s = false) by reflexivity.
  assert (V : scanner (dom s) <> Some true) by discriminate.
  split; [auto|].
  destruct (startScanning_edges 1700000000000 FrameReady s)
    as (_ & _ & NoVideo & _).
  destruct (NoVideo E V) as (H1 & H2 & _).
  split; [exact H1|exact H2].
Defined.

(** A record with a product behind a newer record without one; the older
    record is looked at. *)
Lemma showHistoryDetails_writes_head_witness :
  let s :=
    run samplePlatform
      [ TypeManual "5901234123457" "EAN-13"; SubmitManual 1700000000000;
        FetchSettled "5901234123457" (FetchJson 1 (Some sampleProduct));
        TypeManual "012345678905" "UPC-A"; SubmitManual 1700000001000 ]
      freshApp in
  let head := Scan.make "012345678905" "UPC-A" "2023-11-14T22:13:21.000Z" None in
  let scan :=
    Scan.make "5901234123457" "EAN-13" "2023-11-14T22:13:20.000Z"
      (Some "Milk") in
  (nth_error (scanHistory s) 1 = Some scan
   /\ productInfo (dom s) = Some CardLoading
   /\ scanHistory s = [head; scan])
  /\ scanHistory (showHistoryDetails samplePlatform 1 s)
     = [Scan.with_product (Some "Milk") head; scan].
Proof.
  intros s head scan.
  assert (N : nth_error (scanHistory s) 1 = Some scan) by reflexivity.
  assert (C : productInfo (dom s) = Some CardLoading) by reflexivity.
  assert (H : scanHistory s = [head; scan]) by reflexivity.
  split; [auto|].
  destruct (showHistoryDetails_writes_head samplePlatform 1 s)
    as (_ & Write & _).
  exact (Write scan head [scan] "Milk" CardLoading N eq_refl eq_refl C H).
Defined.

(** The automatic-search box is cleared and the settings are saved. *)
Lemma processScan_without_autoSearch_witness :
  let page :=
    set_checkbox (fun c => match c with
                           | cbAutoSearch => Some false
                           | _ => Some true
                           end) (dom freshApp) in
  let s := updateSettings (set_dom page freshApp) in
  let s' := processScan samplePlatform "012345678905" "UPC-A" 1700000000000 s in
  autoSearch (settings s) = false
  /\ pendingLookups (host s') = []
  /\ productInfo (dom s') = Some CardLoading.
Proof.
  intros page s s'.
  assert (A : autoSearch (settings s) = false) by reflexivity.
  split; [exact A|].
  destruct (processScan_without_autoSearch samplePlatform "012345678905"
              "UPC-A" 1700000000000 s A) as (H1 & _ & H3).
  split; [exact H1|exact H3].
Defined.

(** A short text. *)
Lemma truncateText_bounds_witness :
  (String.length "Milk" <= 200)%nat /\ truncateText "Milk" = "Milk".
Proof.
  assert (L : (String.length "Milk" <= 200)%nat) by (cbn; lia).
  split; [exact L|].
  destruct (truncateText_bounds "Milk") as (_ & Short & _).
  exact (Short L).
Defined.

(** An answer with status 1 and a product that has a name only. *)
Lemma searchOpenFoodFacts_result_witness :
  let resp := FetchJson 1 (Some sampleProduct) in
  exists pd : ProductData,
    searchOpenFoodFacts "012345678905" resp = Some pd
    /\ name pd = "Milk" /\ brand pd = "Unknown Brand"
    /\ nonEmpty (name pd) = true /\ nonEmpty (brand pd) = true.
Proof.
  intros resp.
  destruct (searchOpenFoodFacts "012345678905" resp) as [pd|] eqn:E;
    [|discriminate E].
  exists pd.
  destruct (searchOpenFoodFacts_result samplePlatform "012345678905" resp)
    as (_ & Found).
  destruct (Found pd E) as (N & B & _).
  injection E as <-.
  split; [reflexivity|]. split; [reflexivity|]. split; [reflexivity|].
  split; [exact N|exact B].
Defined.

(** A code typed with a blank before and after it. *)
Lemma submitManualCode_ignores_surrounding_space_witness :
  (manualCode (dom freshApp) <> None /\ manualFormat (dom freshApp) <> None
   /\ trim " 012345678905 " <> "")
  /\ submitManualCode samplePlatform 1700000000000
       (dispatch samplePlatform (TypeManual " 012345678905 " "UPC-A") freshApp)
     = submitManualCode samplePlatform 1700000000000
         (dispatch samplePlatform (TypeManual "012345678905" "UPC-A") freshApp).
Proof.
  assert (C : manualCode (dom freshApp) <> None) by discriminate.
  assert (F : manualFormat (dom freshApp) <> None) by discriminate.
  assert (T : trim " 012345678905 " <> "") by (vm_compute; discriminate).
  split; [auto|].
  exact (submitManualCode_ignores_surrounding_space samplePlatform freshApp
           1700000000000 " 012345678905 " "UPC-A" C F T).
Defined.

(** The fresh application: nine check boxes, thresholds 2 and 2000. *)
Lemma settings_dialog_round_trip_witness :
  (forall c : Checkbox, checkbox (dom freshApp) c <> None)
  /\ settings (updateSettings (loadSettingsUI freshApp)) = settings freshApp.
Proof.
  assert (All : forall c : Checkbox, checkbox (dom freshApp) c <> None)
    by (intros c; discriminate).
  split; [exact All|].
  destruct (settings_dialog_round_trip freshApp) as (_ & Back & _).
  exact (Back All eq_refl eq_refl).
Defined.

(** The first detection of a freshly started scan with the default
    settings. *)
Lemma pending_detection_stalls_the_scan_witness :
  let s := startScanning 1700000000000 FrameReady freshApp in
  let s' :=
    dispatch samplePlatform
      (DecodeSettled (Some sampleResult)
         1700000000200 1700000000200 1700000000200) s in
  (isScanning s = true /\ pendingDecodes (host s) = 1%nat
   /\ pendingFrames (host s) = 0%nat)
  /\ stalled s'.
Proof.
  intros s s'.
  assert (E : isScanning s = true) by reflexivity.
  assert (D : pendingDecodes (host s) = 1%nat) by reflexivity.
  assert (F : pendingFrames (host s) = 0%nat) by reflexivity.
  split; [auto|].
  apply (proj1 (pending_detection_stalls_the_scan samplePlatform) s
           sampleResult 1700000000200 1700000000200 1700000000200 E D F);
    reflexivity.
Defined.

(** The decoder finds no code in the first frame of a scan. *)
Lemma miss_keeps_the_loop_going_witness :
  let s := startScanning 1700000000000 FrameReady freshApp in
  let s' :=
    dispatch samplePlatform
      (DecodeSettled None 1700000000200 1700000000200 1700000000200) s in
  (isScanning s = true /\ pendingDecodes (host s) <> 0%nat)
  /\ isScanning s' = true /\ loopsInFlight s' = loopsInFlight s.
Proof.
  intros s s'.
  assert (E : isScanning s = true) by reflexivity.
  assert (D : pendingDecodes (host s) <> 0%nat) by discriminate.
  split; [auto|].
  destruct (miss_keeps_the_loop_going samplePlatform s E) as (Miss & _).
  destruct (Miss None 1700000000200 1700000000200 1700000000200 D eq_refl)
    as (H1 & H2 & _).
  split; [exact H1|exact H2].
Defined.
